(** * Repository3: the borgstore-backed key/value repository

    A shallow embedding of [src/borg/repository3.py] and a development of
    the properties its specification states about it.

    Layout of the file:
    - [Py]: the few Python built-ins the class relies on (bytes, str,
      slicing, [list.index], [int], [str.encode]/[bytes.decode]);
    - [Hex]: [bin_to_hex] / [hex_to_bin] of [borg.helpers];
    - [Store]: a model of the external [borgstore.store.Store] object;
    - [Repository3]: the class itself, method by method;
    - [Spec]: the vocabulary of the specification, [Sample]: a small
      instance to run the definitions on;
    - the properties, claim by claim. *)

From Stdlib Require Import ZArith Ascii String Strings.Byte DecimalString.
From stdpp Require Import base option list strings gmap fin_maps.

Local Open Scope string_scope.
Local Open Scope Z_scope.

(** ** Exceptions and results *)

(** The exception classes that can leave a method of the class.  Only the
    class is recorded, not the message. *)
Inductive exn : Type :=
  | ObjectNotFound            (* Repository3.ObjectNotFound *)
  | InvalidRepository         (* Repository3.InvalidRepository *)
  | InvalidRepositoryConfig   (* Repository3.InvalidRepositoryConfig *)
  | IntegrityError            (* borg.helpers.IntegrityError *)
  | StoreObjectNotFound       (* borgstore.store.ObjectNotFound *)
  | BackendAlreadyExists      (* borgstore: create over an existing store *)
  | BackendDoesNotExist       (* borgstore: open of a missing store *)
  | BackendMustBeOpen         (* borgstore: operation on a closed store *)
  | BackendMustNotBeOpen      (* borgstore: open/create of an open store *)
  | ValueError                (* built-in *)
  | UnicodeDecodeError        (* built-in, a subclass of ValueError *)
  | AttributeError            (* built-in *)
  | AssertionError            (* built-in *)
  | NotImplementedError.      (* built-in *)

Inductive result (A : Type) : Type :=
  | Ok (a : A)
  | Raise (e : exn).
Arguments Ok {A} a.
Arguments Raise {A} e.

#[global] Instance exn_eq_dec : EqDecision exn.
Proof. solve_decision. Defined.

#[global] Instance result_ret : MRet result := @Ok.
#[global] Instance result_bind : MBind result := fun A B f m =>
  match m with Ok a => f a | Raise e => Raise e end.
#[global] Instance result_fmap : FMap result := fun A B f m =>
  match m with Ok a => Ok (f a) | Raise e => Raise e end.

Definition is_Ok {A} (m : result A) : Prop := ∃ a, m = Ok a.

(** ** Python values *)

Abbreviation bytes := (list byte).

#[global] Instance byte_eq_dec : EqDecision byte := Byte.byte_eq_dec.
#[global] Instance byte_countable : Countable byte :=
  inj_countable Byte.to_N Byte.of_N Byte.of_to_N.

Module Py.

(** [str.encode()] and [bytes.decode()].  A [str] is kept as the sequence
    of its UTF-8 code units, so encoding is the identity on code units and
    decoding has to check that the bytes are well-formed UTF-8. *)
Definition encode (s : string) : bytes :=
  Ascii.byte_of_ascii <$> String.list_ascii_of_string s.

Definition in_range (lo hi : N) (b : byte) : bool :=
  ((lo <=? Byte.to_N b) && (Byte.to_N b <=? hi))%N.

Definition cont : byte → bool := in_range 128 191.

Fixpoint utf8_valid (fuel : nat) (bs : bytes) : bool :=
  match fuel with
  | O => match bs with [] => true | _ => false end
  | S fuel =>
    match bs with
    | [] => true
    | b0 :: bs1 =>
      if in_range 0 127 b0 then utf8_valid fuel bs1
      else match bs1 with
      | [] => false
      | b1 :: bs2 =>
        if in_range 194 223 b0 then cont b1 && utf8_valid fuel bs2
        else match bs2 with
        | [] => false
        | b2 :: bs3 =>
          if in_range 224 224 b0
          then in_range 160 191 b1 && cont b2 && utf8_valid fuel bs3
          else if in_range 237 237 b0
          then in_range 128 159 b1 && cont b2 && utf8_valid fuel bs3
          else if in_range 225 239 b0
          then cont b1 && cont b2 && utf8_valid fuel bs3
          else match bs3 with
          | [] => false
          | b3 :: bs4 =>
            if in_range 240 240 b0
            then in_range 144 191 b1 && cont b2 && cont b3
                 && utf8_valid fuel bs4
            else if in_range 241 243 b0
            then cont b1 && cont b2 && cont b3 && utf8_valid fuel bs4
            else if in_range 244 244 b0
            then in_range 128 143 b1 && cont b2 && cont b3
                 && utf8_valid fuel bs4
            else false
          end
        end
      end
    end
  end.

Definition decode (bs : bytes) : result string :=
  if utf8_valid (length bs) bs
  then Ok (String.string_of_list_ascii (Ascii.ascii_of_byte <$> bs))
  else Raise UnicodeDecodeError.

(** [len(x)] is a Python int. *)
Definition len {A} (l : list A) : Z := Z.of_nat (length l).

(** Slicing with step 1.  An index is first normalised against the length:
    a negative one counts from the end, and both ends are clamped. *)
Definition norm_index (i : Z) (n : nat) : nat :=
  if i <? 0 then Z.to_nat (Z.of_nat n + i) else Z.to_nat i `min` n.

(** [l[start:stop]] *)
Definition slice {A} (start stop : Z) (l : list A) : list A :=
  drop (norm_index start (length l)) (take (norm_index stop (length l)) l).

(** [l[:stop]] *)
Definition slice_to {A} (stop : Z) (l : list A) : list A :=
  take (norm_index stop (length l)) l.

(** [l[start:]] *)
Definition slice_from {A} (start : Z) (l : list A) : list A :=
  drop (norm_index start (length l)) l.

(** [l.index(x)]: position of the first element equal to [x]; ValueError
    when there is none. *)
Fixpoint index `{EqDecision A} (x : A) (l : list A) : result Z :=
  match l with
  | [] => Raise ValueError
  | y :: l' => if decide (y = x) then Ok 0 else Z.succ <$> index x l'
  end.

(** [l[-1] if l else None]. *)
Definition last_or_None {A} (l : list A) : option A := last l.

(** [str(n)] for an int. *)
Definition str (n : Z) : string := NilZero.string_of_int (Z.to_int n).

(** [int(s)] for a str, base 10: surrounding white space is stripped, one
    sign is allowed, and single underscores may separate digits.  Only
    ASCII white space and ASCII digits are recognised. *)
Definition is_space (c : ascii) : bool :=
  let n := Ascii.N_of_ascii c in
  ((9 <=? n) && (n <=? 13) || (28 <=? n) && (n <=? 32))%N.

Definition digit (c : ascii) : option Z :=
  let n := Ascii.N_of_ascii c in
  if ((48 <=? n) && (n <=? 57))%N then Some (Z.of_N n - 48) else None.

Fixpoint lstrip (cs : list ascii) : list ascii :=
  match cs with
  | c :: cs' => if is_space c then lstrip cs' else cs
  | [] => []
  end.

Definition strip (cs : list ascii) : list ascii :=
  reverse (lstrip (reverse (lstrip cs))).

Fixpoint digits (acc : Z) (after_digit : bool) (cs : list ascii) : option Z :=
  match cs with
  | [] => if after_digit then Some acc else None
  | c :: cs' =>
    match digit c with
    | Some d => digits (10 * acc + d) true cs'
    | None =>
      if decide (c = "_"%char) then
        if after_digit then digits acc false cs' else None
      else None
    end
  end.

Definition int (s : string) : result Z :=
  let parsed :=
    match strip (String.list_ascii_of_string s) with
    | c :: cs' =>
      if decide (c = "-"%char) then Z.opp <$> digits 0 false cs'
      else if decide (c = "+"%char) then digits 0 false cs'
      else digits 0 false (c :: cs')
    | [] => None
    end in
  match parsed with Some n => Ok n | None => Raise ValueError end.

End Py.

(** ** Hexadecimal ids *)

(** Modelled from the spec: [bin_to_hex] and [hex_to_bin] of [borg.helpers],
    which is not among the sources.  The spec stores ids as hex text
    (section 6, [config]: "id (hex)"); the test [test_bin_to_hex] fixes the
    alphabet: two lower-case digits per byte.  [hex_to_bin] is
    [binascii.unhexlify] with every failure turned into ValueError, followed
    by an optional check of the number of bytes. *)
Module Hex.

Definition hexdigit (d : N) : ascii :=
  Ascii.ascii_of_N (if (d <? 10)%N then 48 + d else 87 + d).

Definition unhexdigit (c : ascii) : option N :=
  let n := Ascii.N_of_ascii c in
  if ((48 <=? n) && (n <=? 57))%N then Some (n - 48)%N
  else if ((97 <=? n) && (n <=? 102))%N then Some (n - 87)%N
  else if ((65 <=? n) && (n <=? 70))%N then Some (n - 55)%N
  else None.

Definition hexlify_byte (b : byte) : list ascii :=
  let n := Byte.to_N b in [hexdigit (n / 16); hexdigit (n mod 16)]%N.

Definition hexlify (bs : bytes) : list ascii := bs ≫= hexlify_byte.

Fixpoint unhexlify (cs : list ascii) : option bytes :=
  match cs with
  | [] => Some []
  | [_] => None
  | c1 :: c2 :: cs' =>
    hi ← unhexdigit c1;
    lo ← unhexdigit c2;
    b ← Byte.of_N (16 * hi + lo);
    (b ::.) <$> unhexlify cs'
  end.

Definition bin_to_hex (binary : bytes) : string :=
  String.string_of_list_ascii (hexlify binary).

Definition hex_to_bin (hex : string) (length : option Z) : result bytes :=
  match unhexlify (String.list_ascii_of_string hex) with
  | None => Raise ValueError
  | Some binary =>
    match length with
    | Some n => if decide (Py.len binary ≠ n) then Raise ValueError else Ok binary
    | None => Ok binary
    end
  end.

End Hex.

(** ** Constants defined outside the class *)

(** Modelled from the spec: [MAX_DATA_SIZE] and [REPOSITORY_README] of
    [borg.constants] and the header layout [RepoObj.meta_len_hdr] of
    [borg.repoobj] are not among the sources.  The spec only says that
    MAX_DATA_SIZE is the "per-payload upper bound enforced by the engine", so
    all of them are parameters of the development. *)
Class Constants := {
  MAX_DATA_SIZE : Z;
  REPOSITORY_README : string;
  (** [RepoObj.meta_len_hdr.size] *)
  meta_len_hdr_size : Z;
  (** [RepoObj.meta_len_hdr.unpack(b)[0]] *)
  meta_len_hdr_unpack : bytes → Z;
}.

(** ** The store *)

(** [borgstore.store.Store] is an external library.  The class uses it as a
    persistent mapping from names such as ["data/<hex id>"] to byte strings,
    reached through a handle that has to be open.  The model keeps what is on
    disk ([backend], [None] while nothing was created at the URL) and the
    state of the handle ([opened]).  Nesting levels only change where the
    backend puts a file, not what a name maps to, and are left out. *)
Module Store.

Record ItemInfo := { name : string; size : Z }.

Record t := { backend : option (gmap string bytes); opened : bool }.

Definition create (s : t) : result t :=
  if opened s then Raise BackendMustNotBeOpen
  else match backend s with
       | Some _ => Raise BackendAlreadyExists
       | None => Ok {| backend := Some ∅; opened := false |}
       end.

Definition destroy (s : t) : result t :=
  if opened s then Raise BackendMustNotBeOpen
  else match backend s with
       | Some _ => Ok {| backend := None; opened := false |}
       | None => Raise BackendDoesNotExist
       end.

Definition open (s : t) : result t :=
  if opened s then Raise BackendMustNotBeOpen
  else match backend s with
       | Some m => Ok {| backend := Some m; opened := true |}
       | None => Raise BackendDoesNotExist
       end.

Definition close (s : t) : result t :=
  if opened s then Ok {| backend := backend s; opened := false |}
  else Raise BackendMustBeOpen.

(** What an operation finds on disk, provided the handle is open. *)
Definition items (s : t) : result (gmap string bytes) :=
  if opened s then
    match backend s with
    | Some m => Ok m
    | None => Raise BackendDoesNotExist
    end
  else Raise BackendMustBeOpen.

(** [store(name, value)]: create or overwrite. *)
Definition store (name : string) (value : bytes) (s : t) : result t :=
  m ← items s;
  Ok {| backend := Some (<[name := value]> m); opened := opened s |}.

(** [load(name, size=None)]: the value, or its first [size] bytes. *)
Definition load (name : string) (size : option Z) (s : t) : result bytes :=
  m ← items s;
  match m !! name with
  | Some value =>
    Ok (match size with
        | Some n => take (Z.to_nat n) value
        | None => value
        end)
  | None => Raise StoreObjectNotFound
  end.

(** [delete(name)]: remove; a missing name is an error. *)
Definition delete (name : string) (s : t) : result t :=
  m ← items s;
  match m !! name with
  | Some _ => Ok {| backend := Some (base.delete name m); opened := opened s |}
  | None => Raise StoreObjectNotFound
  end.

Fixpoint strip_prefix (p s : string) : option string :=
  match p, s with
  | EmptyString, _ => Some s
  | String a p', String b s' =>
    if decide (a = b) then strip_prefix p' s' else None
  | String _ _, EmptyString => None
  end.

Definition info_in (ns : string) (kv : string * bytes) : option ItemInfo :=
  n ← strip_prefix (ns +:+ "/") kv.1;
  Some {| name := n; size := Py.len kv.2 |}.

(** [list(ns)]: one [ItemInfo] per name below the namespace [ns].  The
    backend decides the order; all the class may rely on is that it is a
    function of what is stored.  The model takes the order in which the
    finite map enumerates its keys. *)
Definition list_ (ns : string) (s : t) : result (list ItemInfo) :=
  m ← items s;
  Ok (omap (info_in ns) (map_to_list m)).

End Store.

(** ** The class *)

Module Repository3.

(** The attributes the modelled methods read or write.  [path],
    [append_only] and the quota attributes influence none of them; [id]
    is not set before [open]. *)
Record t := {
  store : Store.t;
  version : option Z;
  id : option bytes;
  opened : bool;
}.

(** A method is a computation on [self] that returns or raises.  What was
    assigned before a [raise] stays assigned. *)
Definition M (A : Type) : Type := t → result A * t.

#[global] Instance M_ret : MRet M := fun A a self => (Ok a, self).
#[global] Instance M_bind : MBind M := fun A B f m self =>
  match m self with
  | (Ok a, self') => f a self'
  | (Raise e, self') => (Raise e, self')
  end.

Definition raise {A} (e : exn) : M A := fun self => (Raise e, self).

(** [try: body except e: handler] *)
Definition try_except {A} (body : M A) (e : exn) (handler : M A) : M A :=
  fun self =>
    match body self with
    | (Raise e', self') =>
      if decide (e' = e) then handler self' else (Raise e', self')
    | ok => ok
    end.

(** A pure computation that may raise. *)
Definition lift {A} (m : result A) : M A := fun self => (m, self).

(** Calls on [self.store]. *)
Definition store_call (f : Store.t → result Store.t) : M () := fun self =>
  match f (store self) with
  | Ok s' => (Ok (), {| store := s'; version := version self;
                        id := id self; opened := opened self |})
  | Raise e => (Raise e, self)
  end.

Definition store_query {A} (f : Store.t → result A) : M A := fun self =>
  (f (store self), self).

Definition set_version (v : Z) : M () := fun self =>
  (Ok (), {| store := store self; version := Some v;
             id := id self; opened := opened self |}).

Definition set_id (i : bytes) : M () := fun self =>
  (Ok (), {| store := store self; version := version self;
             id := Some i; opened := opened self |}).

Definition set_opened (b : bool) : M () := fun self =>
  (Ok (), {| store := store self; version := version self;
             id := id self; opened := b |}).

Definition get_opened : M bool := fun self => (Ok (opened self), self).

(** [__init__]: a new object over what the URL holds; nothing is opened. *)
Definition init (disk : option (gmap string bytes)) : t :=
  {| store := {| Store.backend := disk; Store.opened := false |};
     version := None; id := None; opened := false |}.

Definition acceptable_repo_versions : list Z := [3].

Section methods.
Context `{C : Constants}.

(** [create]; the argument stands for the outcome of [os.urandom(32)]. *)
Definition create (urandom32 : bytes) : M () :=
  store_call Store.create;;
  store_call Store.open;;
  store_call (Store.store "config/readme" (Py.encode REPOSITORY_README));;
  set_version 3;;
  store_call (Store.store "config/version" (Py.encode (Py.str 3)));;
  store_call (Store.store "config/id"
                (Py.encode (Hex.bin_to_hex urandom32)));;
  store_call Store.close.

Definition close : M () :=
  o ← get_opened;
  if o : bool then store_call Store.close;; set_opened false
  else mret ().

Definition open : M () :=
  store_call Store.open;;
  readme ← store_query (Store.load "config/readme" None) ≫= lift ∘ Py.decode;
  if decide (readme ≠ REPOSITORY_README) then raise InvalidRepository else
  v ← (store_query (Store.load "config/version" None) ≫= lift ∘ Py.decode)
        ≫= lift ∘ Py.int;
  set_version v;;
  if decide (v ∉ acceptable_repo_versions)
  then close;; raise InvalidRepositoryConfig else
  i ← (store_query (Store.load "config/id" None) ≫= lift ∘ Py.decode)
        ≫= lift ∘ (λ hex, Hex.hex_to_bin hex (Some 32));
  set_id i;;
  set_opened true.

Definition destroy : M () :=
  close;;
  store_call Store.destroy.

(** [commit(compact, threshold)]: the body is [pass]. *)
Definition commit : M () := mret ().

(** [check(repair, max_duration)]: logs two lines and returns True. *)
Definition check (repair : bool) (max_duration : Z) : M bool := mret true.

(** [scan_low_level], [__len__] and [__contains__] are not implemented. *)
Definition scan_low_level : M () := raise NotImplementedError.

Definition __len__ : M Z := raise NotImplementedError.

Definition __contains__ (id : bytes) : M bool := raise NotImplementedError.

(** [_set_id]: for tests, changes the id of an opened repository. *)
Definition _set_id (id : bytes) : M () :=
  o ← get_opened;
  if negb o then raise AssertionError else
  if decide (Py.len id ≠ 32) then raise AssertionError else
  set_id id;;
  store_call (Store.store "config/id" (Py.encode (Hex.bin_to_hex id))).

Definition save_key (keydata : bytes) : M () :=
  store_call (Store.store "keys/repokey" keydata).

Definition load_key : M bytes :=
  store_query (Store.load "keys/repokey" None).

(** [list(limit, marker, mask, value)]; [mask] and [value] are accepted
    and not used. *)
Definition list_ (limit : option Z) (marker : option bytes)
    (mask value : Z) : M (list bytes) :=
  infos ← store_query (Store.list_ "data");
  ids ← lift (mapM (λ info, Hex.hex_to_bin (Store.name info) None) infos);
  ids ← match marker with
        | Some marker =>
          idx ← lift (Py.index marker ids);
          mret (Py.slice_from (idx + 1) ids)
        | None => mret ids
        end;
  match limit with
  | Some limit => mret (Py.slice_to limit ids)
  | None => mret ids
  end.

Definition scan (limit : option Z) (state : option bytes)
    : M (list bytes * option bytes) :=
  ids ← list_ limit state 0 0;
  let state := Py.last_or_None ids in
  mret (ids, state).

Definition get (id : bytes) (read_data : bool) : M bytes :=
  let id_hex := Hex.bin_to_hex id in
  let key := "data/" +:+ id_hex in
  try_except
    (if read_data then
       store_query (Store.load key None)
     else
       let meta_len_size := meta_len_hdr_size in
       let extra_len := 1024 - meta_len_size in
       obj ← store_query (Store.load key (Some (meta_len_size + extra_len)));
       let meta_len := Py.slice 0 meta_len_size obj in
       if decide (Py.len meta_len ≠ meta_len_size)
       then raise IntegrityError else
       let ml := meta_len_hdr_unpack meta_len in
       obj ← (if decide (ml > extra_len)
              then store_query (Store.load key (Some (meta_len_size + ml)))
              else mret obj : M bytes);
       let meta := Py.slice meta_len_size (meta_len_size + ml) obj in
       if decide (Py.len meta ≠ ml) then raise IntegrityError else
       mret (meta_len ++ meta)%list)
    StoreObjectNotFound
    (raise ObjectNotFound).

(** [put(id, data, wait)]; [wait] is not used. *)
Definition put (id : bytes) (data : bytes) : M () :=
  let data_size := Py.len data in
  if decide (data_size > MAX_DATA_SIZE) then raise IntegrityError else
  let key := "data/" +:+ Hex.bin_to_hex id in
  store_call (Store.store key data).

(** [delete(id, wait)]; [wait] is not used. *)
Definition delete (id : bytes) : M () :=
  let key := "data/" +:+ Hex.bin_to_hex id in
  try_except
    (store_call (Store.delete key))
    StoreObjectNotFound
    (raise ObjectNotFound).

(** The class body ends without a [rollback]: it has no base class and no
    [__getattr__], so the attribute lookup of [self.rollback] fails before
    anything is called. *)
Definition rollback : M () := raise AttributeError.

End methods.

End Repository3.

(** ** Vocabulary of the specification *)

Module Spec.

(** The name under which [put], [get] and [delete] keep an id. *)
Definition key (id : bytes) : string := "data/" +:+ Hex.bin_to_hex id.

(** The store of a repository can be used: its handle is open and there is
    something on disk.  [Repository3.open] establishes this. *)
Definition ready (self : Repository3.t) : Prop :=
  is_Ok (Store.items (Repository3.store self)).

(** What the repository holds for an id, if anything. *)
Definition stored (self : Repository3.t) (id : bytes) : option bytes :=
  match Store.items (Repository3.store self) with
  | Ok m => m !! key id
  | Raise _ => None
  end.

(** [self] with [m] on disk in place of what was there. *)
Definition with_items (m : gmap string bytes) (self : Repository3.t)
    : Repository3.t :=
  {| Repository3.store :=
       {| Store.backend := Some m;
          Store.opened := Store.opened (Repository3.store self) |};
     Repository3.version := Repository3.version self;
     Repository3.id := Repository3.id self;
     Repository3.opened := Repository3.opened self |}.

(** An empty repository: usable, and nothing below ["data"]. *)
Definition empty (self : Repository3.t) : Prop :=
  Store.list_ "data" (Repository3.store self) = Ok [].

(** Every name below ["data"] is the hex form of an id, as [put] writes it. *)
Definition hex_named (self : Repository3.t) : Prop :=
  ∀ m name value,
    Store.items (Repository3.store self) = Ok m →
    m !! ("data/" +:+ name) = Some value →
    ∃ id, name = Hex.bin_to_hex id.

(** A later open: a new object over what is on disk now, then [open]. *)
Definition reopen `{C : Constants} (self : Repository3.t) : Repository3.t :=
  (Repository3.open
     (Repository3.init (Store.backend (Repository3.store self)))).2.

(** Sequences of mutating calls. *)
Inductive op : Type :=
  | Put (id data : bytes)
  | Delete (id : bytes)
  | Commit.

Definition call `{C : Constants} (o : op) : Repository3.M () :=
  match o with
  | Put id data => Repository3.put id data
  | Delete id => Repository3.delete id
  | Commit => Repository3.commit
  end.

(** The calls one after the other; the first exception ends the run. *)
Fixpoint run `{C : Constants} (ops : list op) : Repository3.M () :=
  match ops with
  | [] => mret ()
  | o :: ops' => call o;; run ops'
  end.

(** No call of the sequence deletes the id. *)
Definition never_deleted (ops : list op) (id : bytes) : Prop :=
  ∀ j, ops !! j ≠ Some (Delete id).

(** "put and not subsequently deleted in that sequence" *)
Definition put_not_deleted (ops : list op) (id : bytes) : Prop :=
  ∃ i data, ops !! i = Some (Put id data)
            ∧ ∀ j, (i < j)%nat → ops !! j ≠ Some (Delete id).

(** What [list] does with the ids once it has them. *)
Definition select (limit : option Z) (marker : option bytes)
    (ids : list bytes) : result (list bytes) :=
  ids ← match marker with
        | Some marker =>
          idx ← Py.index marker ids;
          Ok (Py.slice_from (idx + 1) ids)
        | None => Ok ids
        end;
  Ok (match limit with
      | Some limit => Py.slice_to limit ids
      | None => ids
      end).

(** Chaining [scan]: start from [state], feed each returned state into the
    next call, stop at the first empty answer and return all ids seen.  [None]
    when [fuel] calls did not reach an empty answer. *)
Fixpoint scan_all (fuel : nat) (limit : option Z) (state : option bytes)
    : Repository3.M (option (list bytes)) :=
  match fuel with
  | O => mret None
  | S fuel =>
    r ← Repository3.scan limit state;
    match r.1 with
    | [] => mret (Some [])
    | _ :: _ =>
      rest ← scan_all fuel limit r.2;
      mret ((r.1 ++.) <$> rest)
    end
  end.

End Spec.

(** ** A small instance for examples *)

Module Sample.

Definition unpack_le16 (b : bytes) : Z :=
  match b with
  | [lo; hi] => Z.of_N (Byte.to_N lo) + 256 * Z.of_N (Byte.to_N hi)
  | _ => 0
  end.

Definition constants : Constants :=
  {| MAX_DATA_SIZE := 4;
     REPOSITORY_README := "This is a Borg Backup repository.";
     meta_len_hdr_size := 2;
     meta_len_hdr_unpack := unpack_le16 |}.

(** A repository right after [create] and [open]. *)
Definition fresh : Repository3.t :=
  ((Repository3.create (C := constants) (replicate 32 x07);;
    Repository3.open (C := constants)) (Repository3.init None)).2.

(** Three ids and two payloads. *)
Definition k0 : bytes := [x00].
Definition k1 : bytes := [x01].
Definition k2 : bytes := [xff].
Definition foo : bytes := [x66; x6f; x6f].
Definition bar : bytes := [x62; x61; x72].
Definition big : bytes := [x78; x78; x78; x78; x78].

(** [fresh] after [put(k0, foo)], [put(k1, bar)], [put(k2, bar)]. *)
Definition three : Repository3.t :=
  (Spec.run (C := constants) [Spec.Put k0 foo; Spec.Put k1 bar; Spec.Put k2 bar]
     fresh).2.

End Sample.

(** ** The attributes of the context manager and of [info] *)

(** [__init__] sets more attributes than the storage methods use.  [Managed]
    keeps them beside the [Repository3.t] those methods work on, and holds
    the methods that read them: [__enter__], [__exit__] and [info]. *)
Module Managed.

Record t := {
  base : Repository3.t;
  do_create : bool;
  created : bool;
  append_only : bool;
  storage_quota : option Z;
  storage_quota_use : Z;
}.

Definition M (A : Type) : Type := t → result A * t.

#[global] Instance M_ret : MRet M := fun A a self => (Ok a, self).
#[global] Instance M_bind : MBind M := fun A B f m self =>
  match m self with
  | (Ok a, self') => f a self'
  | (Raise e, self') => (Raise e, self')
  end.

(** A call of one of the storage methods on the same object. *)
Definition call {A} (m : Repository3.M A) : M A := fun self =>
  let r := m (base self) in
  (r.1, {| base := r.2; do_create := do_create self; created := created self;
           append_only := append_only self;
           storage_quota := storage_quota self;
           storage_quota_use := storage_quota_use self |}).

Definition get_do_create : M bool := fun self => (Ok (do_create self), self).

Definition set_do_create (b : bool) : M () := fun self =>
  (Ok (), {| base := base self; do_create := b; created := created self;
             append_only := append_only self;
             storage_quota := storage_quota self;
             storage_quota_use := storage_quota_use self |}).

Definition set_created (b : bool) : M () := fun self =>
  (Ok (), {| base := base self; do_create := do_create self; created := b;
             append_only := append_only self;
             storage_quota := storage_quota self;
             storage_quota_use := storage_quota_use self |}).

(** [__init__(path, create, ..., append_only, storage_quota, ...)] over what
    the URL holds. *)
Definition init (disk : option (gmap string bytes)) (create : bool)
    (append_only : bool) (storage_quota : option Z) : t :=
  {| base := Repository3.init disk; do_create := create; created := false;
     append_only := append_only; storage_quota := storage_quota;
     storage_quota_use := 0 |}.

(** The dict [info] returns. *)
Record Info := {
  info_id : bytes;
  info_version : option Z;
  info_storage_quota_use : Z;
  info_storage_quota : option Z;
  info_append_only : bool;
}.

Section methods.
Context `{C : Constants}.

(** [__enter__]; the argument stands for the outcome of [os.urandom(32)]
    should [create] run. *)
Definition __enter__ (urandom32 : bytes) : M () :=
  c ← get_do_create;
  (if c : bool then
     set_do_create false;;
     call (Repository3.create urandom32);;
     set_created true
   else mret ());;
  call Repository3.open.

Definition __exit__ : M () := call Repository3.close.

(** [info]: reading [self.id] fails while no [open] has assigned it. *)
Definition info : M Info := fun self =>
  match Repository3.id (base self) with
  | None => (Raise AttributeError, self)
  | Some i =>
    (Ok {| info_id := i;
           info_version := Repository3.version (base self);
           info_storage_quota_use := storage_quota_use self;
           info_storage_quota := storage_quota self;
           info_append_only := append_only self |}, self)
  end.

End methods.

End Managed.

(** ** Vocabulary of the further properties *)

Module Text.

(** A text of ASCII characters only. *)
Definition ascii_only (s : string) : Prop :=
  Forall (λ b, Py.in_range 0 127 b = true) (Py.encode s).

End Text.

(** ** Vocabulary of the further properties (continued) *)

Module Config.

(** A config entry read as text, as [open] reads it:
    [self.store.load(name).decode()]. *)
Definition read_text (m : gmap string bytes) (name : string) : result string :=
  match m !! name with
  | Some value => Py.decode value
  | None => Raise StoreObjectNotFound
  end.

(** [self] after [open] went as far as [reached]: the handle of the store is
    open over [m], and [version], [id] and [opened] are what was assigned. *)
Definition opened_over (m : gmap string bytes) (version : option Z)
    (id : option bytes) (opened : bool) : Repository3.t :=
  {| Repository3.store := {| Store.backend := Some m; Store.opened := true |};
     Repository3.version := version;
     Repository3.id := id;
     Repository3.opened := opened |}.

(** What [create] leaves on disk. *)
Definition written `{C : Constants} (urandom32 : bytes) : gmap string bytes :=
  <["config/id" := Py.encode (Hex.bin_to_hex urandom32)]>
    (<["config/version" := Py.encode (Py.str 3)]>
       (<["config/readme" := Py.encode REPOSITORY_README]> ∅)).

End Config.

(** ** Disk states for examples *)

Module Cases.

(** A store that is not a repository of this kind. *)
Definition foreign : gmap string bytes :=
  <["config/readme" := Py.encode "Not a repository"]> ∅.


(** An object with a two-byte header announcing one byte of metadata, and
    one whose header announces five bytes it does not hold. *)
Definition obj_meta : bytes := [x01; x00; x61; x62].
Definition obj_short : bytes := [x05; x00; x61].

Definition with_objects : Repository3.t :=
  (Spec.run (C := Sample.constants)
     [Spec.Put Sample.k0 obj_meta; Spec.Put Sample.k1 obj_short]
     Sample.fresh).2.

(** What the sample repositories hold on disk. *)
Definition three_disk : gmap string bytes :=
  <[Spec.key Sample.k2 := Sample.bar]>
    (<[Spec.key Sample.k1 := Sample.bar]>
       (<[Spec.key Sample.k0 := Sample.foo]>
          (Config.written (C := Sample.constants) (replicate 32 x07)))).

Definition objects_disk : gmap string bytes :=
  <[Spec.key Sample.k1 := obj_short]>
    (<[Spec.key Sample.k0 := obj_meta]>
       (Config.written (C := Sample.constants) (replicate 32 x07))).

End Cases.

(** ** Proof steps for [open] *)

Ltac unfold_open :=
  unfold Repository3.open, Repository3.init, mbind, Repository3.M_bind,
    Repository3.store_call, Repository3.store_query, Repository3.lift,
    Repository3.set_version, Repository3.set_id, Repository3.set_opened,
    Repository3.raise, Repository3.close, Repository3.get_opened,
    Store.open, Store.load, Store.items, compose.

Ltac cbn_open :=
  cbn -[Py.decode Py.int Hex.hex_to_bin Repository3.acceptable_repo_versions].

(** * Properties *)

(** ** The Python layer on concrete inputs *)

Example bin_to_hex_test :
  Hex.bin_to_hex [] = EmptyString ∧ Hex.bin_to_hex [x00; x01; xff] = "0001ff".
Proof. split; reflexivity. Qed.

Example hex_to_bin_test :
  Hex.hex_to_bin "0001fF" None = Ok [x00; x01; xff]
  ∧ Hex.hex_to_bin "000" None = Raise ValueError
  ∧ Hex.hex_to_bin "0g" None = Raise ValueError
  ∧ Hex.hex_to_bin "00" (Some 32) = Raise ValueError.
Proof. repeat split; reflexivity. Qed.

Example int_test :
  Py.int " 3" = Ok 3 ∧ Py.int (Py.str 3) = Ok 3 ∧ Py.int "-1_0" = Ok (-10)
  ∧ Py.int EmptyString = Raise ValueError ∧ Py.int "1__0" = Raise ValueError.
Proof. repeat split; reflexivity. Qed.

Example slice_test :
  Py.slice_to 2 [1; 2; 3] = [1; 2] ∧ Py.slice_to (-1) [1; 2; 3] = [1; 2]
  ∧ Py.slice_to 7 [1; 2; 3] = [1; 2; 3] ∧ Py.slice_to (-7) [1; 2; 3] = []
  ∧ Py.slice_from 1 [1; 2; 3] = [2; 3] ∧ Py.slice_from (-1) [1; 2; 3] = [3]
  ∧ Py.slice 1 2 [1; 2; 3] = [2] ∧ Py.slice (-2) (-1) [1; 2; 3] = [2].
Proof. repeat split; reflexivity. Qed.

Example fresh_test :
  Repository3.opened Sample.fresh = true
  ∧ Repository3.version Sample.fresh = Some 3
  ∧ Repository3.id Sample.fresh = Some (replicate 32 x07)
  ∧ Store.list_ "data" (Repository3.store Sample.fresh) = Ok [].
Proof. repeat split; vm_compute; reflexivity. Qed.

(** ** Hexadecimal ids *)

Lemma unhexlify_hexlify_byte (b : byte) (cs : list ascii) :
  Hex.unhexlify (Hex.hexlify_byte b ++ cs)%list = (b ::.) <$> Hex.unhexlify cs.
Proof. destruct b; reflexivity. Qed.

Lemma unhexlify_hexlify (bs : bytes) :
  Hex.unhexlify (Hex.hexlify bs) = Some bs.
Proof.
  induction bs as [|b bs IH]; [reflexivity|].
  change (Hex.hexlify (b :: bs)) with (Hex.hexlify_byte b ++ Hex.hexlify bs)%list.
  now rewrite unhexlify_hexlify_byte, IH.
Qed.

Lemma hex_to_bin_to_hex (id : bytes) :
  Hex.hex_to_bin (Hex.bin_to_hex id) None = Ok id.
Proof.
  unfold Hex.hex_to_bin, Hex.bin_to_hex.
  now rewrite list_ascii_of_string_of_list_ascii, unhexlify_hexlify.
Qed.

Lemma bin_to_hex_inj (a b : bytes) :
  Hex.bin_to_hex a = Hex.bin_to_hex b → a = b.
Proof.
  intros H. pose proof (hex_to_bin_to_hex a) as Ha.
  rewrite H, hex_to_bin_to_hex in Ha. congruence.
Qed.

(** ** Lemmas on the store *)

Lemma strip_prefix_app (p s : string) :
  Store.strip_prefix p (p +:+ s) = Some s.
Proof.
  induction p as [|a p IH]; simpl; [now destruct s|].
  now rewrite decide_True.
Qed.

Lemma strip_prefix_Some (p s t : string) :
  Store.strip_prefix p s = Some t → s = p +:+ t.
Proof.
  revert s. induction p as [|a p IH]; intros s; simpl.
  - destruct s; intros [= <-]; reflexivity.
  - destruct s as [|b s]; [congruence|].
    case_decide; [|congruence]. subst. intros H. now rewrite (IH _ H).
Qed.

Lemma key_inj (a b : bytes) : Spec.key a = Spec.key b → a = b.
Proof.
  unfold Spec.key. intros H. apply bin_to_hex_inj.
  pose proof (strip_prefix_app "data/" (Hex.bin_to_hex a)) as Ha.
  rewrite H, strip_prefix_app in Ha. congruence.
Qed.

Lemma items_opened (s : Store.t) (m : gmap string bytes) :
  Store.items s = Ok m → Store.opened s = true ∧ Store.backend s = Some m.
Proof.
  unfold Store.items. destruct (Store.opened s); [|discriminate].
  destruct (Store.backend s); [|discriminate]. now intros [= ->].
Qed.

Lemma items_with_items (self : Repository3.t) (m m' : gmap string bytes) :
  Store.items (Repository3.store self) = Ok m →
  Store.items (Repository3.store (Spec.with_items m' self)) = Ok m'.
Proof.
  intros [Ho _]%items_opened. unfold Store.items. simpl. now rewrite Ho.
Qed.

Lemma with_items_same (self : Repository3.t) (m : gmap string bytes) :
  Store.items (Repository3.store self) = Ok m → Spec.with_items m self = self.
Proof.
  intros [Ho Hb]%items_opened. destruct self as [[b o] v i op].
  simpl in *. now subst.
Qed.

(** ** The methods, one equation each *)

Section method_equations.
Context `{C : Constants}.

Lemma get_eq (self : Repository3.t) (m : gmap string bytes) (id : bytes) :
  Store.items (Repository3.store self) = Ok m →
  Repository3.get id true self =
    (match m !! Spec.key id with
     | Some data => Ok data
     | None => Raise ObjectNotFound
     end, self).
Proof.
  intros Hm. unfold Repository3.get, Repository3.try_except,
    Repository3.store_query, Store.load.
  fold (Spec.key id). rewrite Hm. simpl.
  now destruct (m !! Spec.key id).
Qed.

Lemma put_eq (self : Repository3.t) (m : gmap string bytes) (id data : bytes) :
  Store.items (Repository3.store self) = Ok m →
  Py.len data ≤ MAX_DATA_SIZE →
  Repository3.put id data self =
    (Ok (), Spec.with_items (<[Spec.key id := data]> m) self).
Proof.
  intros Hm Hsize. unfold Repository3.put.
  rewrite decide_False by lia.
  unfold Repository3.store_call, Store.store. fold (Spec.key id).
  rewrite Hm. simpl. unfold Spec.with_items.
  apply items_opened in Hm as [-> _]. reflexivity.
Qed.

Lemma delete_eq (self : Repository3.t) (m : gmap string bytes) (id : bytes) :
  Store.items (Repository3.store self) = Ok m →
  Repository3.delete id self =
    match m !! Spec.key id with
    | Some _ => (Ok (), Spec.with_items (delete (Spec.key id) m) self)
    | None => (Raise ObjectNotFound, self)
    end.
Proof.
  intros Hm. unfold Repository3.delete, Repository3.try_except,
    Repository3.store_call, Store.delete.
  fold (Spec.key id). rewrite Hm. simpl.
  destruct (m !! Spec.key id); simpl; [|reflexivity].
  unfold Spec.with_items. apply items_opened in Hm as [-> _]. reflexivity.
Qed.

End method_equations.

(** ** Oversized payloads, absent keys, round trip, check *)

(** C4.  A payload longer than MAX_DATA_SIZE is refused with IntegrityError
    before the store is touched: [put] returns the repository it was given,
    so nothing is written for the key. *)
Theorem put_rejects_oversized `{C : Constants}
    (self : Repository3.t) (k payload : bytes) :
  Py.len payload > MAX_DATA_SIZE →
  Repository3.put k payload self = (Raise IntegrityError, self).
Proof.
  intros Hsize. unfold Repository3.put. now rewrite decide_True.
Qed.

Lemma put_rejects_oversized_witness :
  Py.len Sample.big > MAX_DATA_SIZE (Constants := Sample.constants)
  ∧ Repository3.put (C := Sample.constants) Sample.k0 Sample.big Sample.fresh
    = (Raise IntegrityError, Sample.fresh).
Proof.
  split; [reflexivity|].
  apply (put_rejects_oversized (C := Sample.constants)). reflexivity.
Defined.

(** C5.  Deleting a key the repository does not hold raises ObjectNotFound
    and leaves the repository as it was. *)
Theorem delete_absent_raises (self : Repository3.t) (k : bytes) :
  Spec.ready self →
  Spec.stored self k = None →
  Repository3.delete k self = (Raise ObjectNotFound, self).
Proof.
  intros [m Hm] Habsent. unfold Spec.stored in Habsent. rewrite Hm in Habsent.
  rewrite (delete_eq _ _ _ Hm). now rewrite Habsent.
Qed.

Lemma delete_absent_raises_witness :
  Spec.ready Sample.three
  ∧ Spec.stored Sample.three [x02] = None
  ∧ Repository3.delete [x02] Sample.three = (Raise ObjectNotFound, Sample.three).
Proof.
  assert (Hready : Spec.ready Sample.three) by (eexists; vm_compute; reflexivity).
  assert (Habsent : Spec.stored Sample.three [x02] = None)
    by (vm_compute; reflexivity).
  exact (conj Hready (conj Habsent
           (delete_absent_raises Sample.three [x02] Hready Habsent))).
Defined.

(** C6.  For a payload of at most MAX_DATA_SIZE bytes, [get] after [put] and
    [commit] returns that payload, byte for byte. *)
Theorem put_commit_get_roundtrip `{C : Constants}
    (self : Repository3.t) (k v : bytes) :
  Spec.ready self →
  Py.len v ≤ MAX_DATA_SIZE →
  (Repository3.put k v;; Repository3.commit;; Repository3.get k true) self
  = (Ok v, (Repository3.put k v self).2).
Proof.
  intros [m Hm] Hsize.
  unfold mbind, Repository3.M_bind, Repository3.commit, mret, Repository3.M_ret.
  rewrite (put_eq _ _ _ _ Hm Hsize). simpl.
  rewrite (get_eq _ _ _ (items_with_items _ _ _ Hm)).
  now rewrite lookup_insert_eq.
Qed.

Lemma put_commit_get_roundtrip_witness :
  Spec.ready Sample.fresh
  ∧ Py.len Sample.foo ≤ MAX_DATA_SIZE (Constants := Sample.constants)
  ∧ (Repository3.put (C := Sample.constants) Sample.k0 Sample.foo;;
     Repository3.commit;;
     Repository3.get (C := Sample.constants) Sample.k0 true) Sample.fresh
    = (Ok Sample.foo,
       (Repository3.put (C := Sample.constants) Sample.k0 Sample.foo
          Sample.fresh).2).
Proof.
  assert (Hready : Spec.ready Sample.fresh) by (eexists; vm_compute; reflexivity).
  assert (Hsize : Py.len Sample.foo ≤ MAX_DATA_SIZE (Constants := Sample.constants))
    by (vm_compute; discriminate).
  exact (conj Hready (conj Hsize
           (put_commit_get_roundtrip (C := Sample.constants)
              Sample.fresh Sample.k0 Sample.foo Hready Hsize))).
Defined.

(** C8.  [check] without repair returns the repository it was given, and two
    checks in a row give the result and the repository of a single one. *)
Theorem check_no_mutation_idempotent
    (self : Repository3.t) (repair : bool) (d d' : Z) :
  (Repository3.check false d self).2 = self
  ∧ (Repository3.check repair d;; Repository3.check repair d') self
    = Repository3.check repair d self.
Proof. split; reflexivity. Qed.

(** ** Listing *)

(** [list] reads the store once and then works on the ids alone; it never
    assigns to [self]. *)
Lemma list_select (self : Repository3.t) (limit : option Z)
    (marker : option bytes) (mask value : Z) :
  Repository3.list_ limit marker mask value self
  = ((Repository3.list_ None None 0 0 self).1 ≫= Spec.select limit marker, self).
Proof.
  unfold Repository3.list_, Spec.select, mbind, Repository3.M_bind,
    Repository3.store_query, Repository3.lift, mret, Repository3.M_ret.
  destruct (Store.list_ "data" (Repository3.store self)) as [infos|e];
    [|reflexivity].
  simpl.
  destruct (mapM _ infos) as [ids|e]; [|reflexivity].
  simpl. destruct marker as [x|]; simpl.
  - destruct (Py.index x ids) as [idx|e]; simpl; [|reflexivity].
    now destruct limit.
  - now destruct limit.
Qed.

Lemma list_keeps_self (self : Repository3.t) (limit : option Z)
    (marker : option bytes) (mask value : Z) :
  (Repository3.list_ limit marker mask value self).2 = self.
Proof. now rewrite list_select. Qed.

Lemma index_absent (x : bytes) (ids : list bytes) :
  x ∉ ids → Py.index x ids = Raise ValueError.
Proof.
  induction ids as [|y ids IH]; intros Hx; simpl; [reflexivity|].
  apply not_elem_of_cons in Hx as [Hne Hx].
  rewrite decide_False by congruence. now rewrite IH.
Qed.

Lemma index_first (x : bytes) (pre suf : list bytes) :
  x ∉ pre → Py.index x (pre ++ x :: suf) = Ok (Py.len pre).
Proof.
  induction pre as [|y pre IH]; intros Hx; simpl.
  - now rewrite decide_True.
  - apply not_elem_of_cons in Hx as [Hne Hx].
    rewrite decide_False by congruence. rewrite IH by assumption.
    simpl. unfold Py.len. simpl length. f_equal. lia.
Qed.

Lemma slice_from_after (x : bytes) (pre suf : list bytes) :
  Py.slice_from (Py.len pre + 1) (pre ++ x :: suf) = suf.
Proof.
  unfold Py.slice_from, Py.norm_index, Py.len.
  destruct (Z.ltb_spec (Z.of_nat (length pre) + 1) 0) as [?|_]; [lia|].
  rewrite length_app. simpl length.
  replace (Z.to_nat (Z.of_nat (length pre) + 1) `min` (length pre + S (length suf)))%nat
    with (length pre + 1)%nat by lia.
  rewrite cons_middle, app_assoc.
  apply drop_app_length'. rewrite length_app. reflexivity.
Qed.

Lemma select_marker (x : bytes) (pre suf : list bytes) (limit : option Z) :
  x ∉ pre →
  Spec.select limit (Some x) (pre ++ x :: suf)
  = Spec.select limit None suf.
Proof.
  intros Hx. unfold Spec.select. rewrite index_first by assumption.
  simpl. now rewrite slice_from_after.
Qed.

(** C7.  [list()] leaves the repository as it was, so a second call gives the
    ids of the first call in the same order; and for an id [x] of that order,
    [list(marker=x)] is the part of the order after [x] ([x] does not occur
    before it, so this is the suffix strictly after [x]). *)
Theorem list_stable_and_marker_suffix (self : Repository3.t) :
  (Repository3.list_ None None 0 0 self).2 = self
  ∧ (ids1 ← Repository3.list_ None None 0 0;
     ids2 ← Repository3.list_ None None 0 0;
     mret (ids1, ids2)) self
    = ((λ ids, (ids, ids)) <$> fst (Repository3.list_ None None 0 0 self), self)
  ∧ ∀ ids x,
      (Repository3.list_ None None 0 0 self).1 = Ok ids →
      x ∈ ids →
      ∃ pre suf, ids = (pre ++ x :: suf)%list ∧ (x ∉ pre)
                 ∧ Repository3.list_ None (Some x) 0 0 self = (Ok suf, self).
Proof.
  split; [apply list_keeps_self|]. split.
  - unfold mbind at 1. unfold Repository3.M_bind at 1.
    pose proof (list_keeps_self self None None 0 0) as Hself.
    destruct (Repository3.list_ None None 0 0 self) as [[ids|e] self'] eqn:Hl;
      simpl in Hself; subst self'; [|reflexivity].
    unfold mbind, Repository3.M_bind. rewrite Hl. reflexivity.
  - intros ids x Hids Hx.
    apply list_elem_of_split_l in Hx as (pre & suf & -> & Hpre).
    exists pre, suf. split; [reflexivity|]. split; [assumption|].
    rewrite list_select, Hids. simpl.
    now rewrite select_marker.
Qed.

Lemma list_stable_and_marker_suffix_witness :
  (Repository3.list_ None None 0 0 Sample.three).1
    = Ok [Sample.k2; Sample.k1; Sample.k0]
  ∧ Sample.k1 ∈ [Sample.k2; Sample.k1; Sample.k0]
  ∧ ∃ pre suf, [Sample.k2; Sample.k1; Sample.k0] = (pre ++ Sample.k1 :: suf)%list
               ∧ (Sample.k1 ∉ pre)
               ∧ Repository3.list_ None (Some Sample.k1) 0 0 Sample.three
                 = (Ok suf, Sample.three).
Proof.
  assert (Hids : (Repository3.list_ None None 0 0 Sample.three).1
                 = Ok [Sample.k2; Sample.k1; Sample.k0])
    by (vm_compute; reflexivity).
  assert (Hin : Sample.k1 ∈ [Sample.k2; Sample.k1; Sample.k0])
    by (apply list_elem_of_further, list_elem_of_here).
  split; [exact Hids|]. split; [exact Hin|].
  exact (proj2 (proj2 (list_stable_and_marker_suffix Sample.three)) _ _ Hids Hin).
Defined.

(** C9.  A marker that is none of the ids [list()] returns makes
    [list(marker=...)] raise ValueError, whatever the limit: the lookup of the
    marker among the ids finds nothing. *)
Theorem list_unknown_marker_raises (self : Repository3.t)
    (ids : list bytes) (marker : bytes) (limit : option Z) (mask value : Z) :
  (Repository3.list_ None None 0 0 self).1 = Ok ids →
  marker ∉ ids →
  Repository3.list_ limit (Some marker) mask value self
  = (Raise ValueError, self).
Proof.
  intros Hids Hmarker. rewrite list_select, Hids. simpl.
  unfold Spec.select. now rewrite index_absent.
Qed.

Lemma list_unknown_marker_raises_witness :
  (Repository3.list_ None None 0 0 Sample.three).1
    = Ok [Sample.k2; Sample.k1; Sample.k0]
  ∧ ([x02] ∉ [Sample.k2; Sample.k1; Sample.k0])
  ∧ Repository3.list_ (Some 2) (Some [x02]) 0 0 Sample.three
    = (Raise ValueError, Sample.three).
Proof.
  assert (Hids : (Repository3.list_ None None 0 0 Sample.three).1
                 = Ok [Sample.k2; Sample.k1; Sample.k0])
    by (vm_compute; reflexivity).
  assert (Hout : [x02] ∉ [Sample.k2; Sample.k1; Sample.k0]).
  { intros H. repeat (apply elem_of_cons in H as [H|H]; [discriminate H|]).
    now apply elem_of_nil in H. }
  split; [exact Hids|]. split; [exact Hout|].
  exact (list_unknown_marker_raises Sample.three _ [x02] (Some 2) 0 0 Hids Hout).
Defined.

(** ** Sequences of put, delete and commit *)

Lemma never_deleted_cons (o : Spec.op) (ops : list Spec.op) (k : bytes) :
  Spec.never_deleted (o :: ops) k ↔ o ≠ Spec.Delete k ∧ Spec.never_deleted ops k.
Proof.
  unfold Spec.never_deleted. split.
  - intros H. split.
    + intros ->. now apply (H 0%nat).
    + intros j. apply (H (S j)).
  - intros [Ho H] [|j]; simpl; [congruence|apply H].
Qed.

Lemma put_not_deleted_cons (o : Spec.op) (ops : list Spec.op) (k : bytes) :
  Spec.put_not_deleted (o :: ops) k
  ↔ ((∃ data, o = Spec.Put k data) ∧ Spec.never_deleted ops k)
    ∨ Spec.put_not_deleted ops k.
Proof.
  unfold Spec.put_not_deleted, Spec.never_deleted. split.
  - intros ([|i] & data & Hi & Hlater); simpl in Hi.
    + left. split; [exists data; congruence|].
      intros j. apply (Hlater (S j)). lia.
    + right. exists i, data. split; [assumption|].
      intros j Hj. apply (Hlater (S j)). lia.
  - intros [[[data ->] Hnever]|(i & data & Hi & Hlater)].
    + exists 0%nat, data. split; [reflexivity|].
      intros [|j] Hj; [lia|]. apply Hnever.
    + exists (S i), data. split; [assumption|].
      intros [|j] Hj; [lia|]. apply Hlater. lia.
Qed.

Lemma put_not_deleted_nil (k : bytes) : ¬ Spec.put_not_deleted [] k.
Proof. intros (i & data & Hi & _). now rewrite lookup_nil in Hi. Qed.

Section sequences.
Context `{C : Constants}.

(** What a sequence that ran to its end leaves in the store, in terms of
    what was there before. *)
Lemma run_stored (ops : list Spec.op) :
  ∀ (self self' : Repository3.t) (m : gmap string bytes),
    Store.items (Repository3.store self) = Ok m →
    Spec.run ops self = (Ok (), self') →
    ∃ m', Store.items (Repository3.store self') = Ok m'
          ∧ ∀ k, is_Some (m' !! Spec.key k)
                 ↔ Spec.put_not_deleted ops k
                   ∨ (is_Some (m !! Spec.key k) ∧ Spec.never_deleted ops k).
Proof.
  induction ops as [|o ops IH]; intros self self' m Hm Hrun.
  - injection Hrun as <-. exists m. split; [assumption|].
    intros k. split.
    + intros Hk. right. split; [assumption|]. intros j. now rewrite lookup_nil.
    + intros [Hk|[Hk _]]; [now apply put_not_deleted_nil in Hk|assumption].
  - cbn [Spec.run] in Hrun. unfold mbind, Repository3.M_bind in Hrun.
    destruct o as [id data|id|]; cbn [Spec.call] in Hrun.
    + destruct (decide (Py.len data > MAX_DATA_SIZE)) as [Hbig|Hsize].
      { unfold Repository3.put in Hrun. rewrite decide_True in Hrun by assumption.
        discriminate Hrun. }
      rewrite (put_eq _ _ _ _ Hm) in Hrun by lia.
      destruct (IH _ _ _ (items_with_items _ _ _ Hm) Hrun) as (m' & Hm' & Hk).
      exists m'. split; [assumption|]. intros k. rewrite Hk.
      rewrite put_not_deleted_cons, never_deleted_cons.
      destruct (decide (k = id)) as [->|Hne].
      * rewrite lookup_insert_eq. split.
        -- intros [H|[_ H]]; [now left; right|]. left. left. split; eauto.
        -- intros [[[_ H]|H]|[_ [_ H]]]; [right|now left|right];
             (split; [eauto|assumption]).
      * rewrite lookup_insert_ne by (intros H; apply Hne; symmetry;
                                     now apply key_inj).
        split.
        -- intros [H|[H1 H2]]; [now left; right|]. right.
           split; [assumption|]. split; [discriminate|assumption].
        -- intros [[[[d Hd] _]|H]|[H1 [_ H2]]];
             [congruence|now left|now right].
    + rewrite (delete_eq _ _ _ Hm) in Hrun.
      destruct (m !! Spec.key id) as [old|] eqn:Hold; [|discriminate Hrun].
      destruct (IH _ _ _ (items_with_items _ _ _ Hm) Hrun) as (m' & Hm' & Hk).
      exists m'. split; [assumption|]. intros k. rewrite Hk.
      rewrite put_not_deleted_cons, never_deleted_cons.
      destruct (decide (k = id)) as [->|Hne].
      * rewrite lookup_delete_eq. split.
        -- intros [H|[[? H] _]]; [now left; right|discriminate H].
        -- intros [[[[d Hd] _]|H]|[_ [H _]]];
             [discriminate Hd|now left|congruence].
      * rewrite lookup_delete_ne by (intros H; apply Hne; symmetry;
                                     now apply key_inj).
        split.
        -- intros [H|[H1 H2]]; [now left; right|]. right.
           split; [assumption|]. split; [congruence|assumption].
        -- intros [[[[d Hd] _]|H]|[H1 [_ H2]]];
             [discriminate Hd|now left|now right].
    + unfold Repository3.commit, mret, Repository3.M_ret in Hrun.
      destruct (IH _ _ _ Hm Hrun) as (m' & Hm' & Hk).
      exists m'. split; [assumption|]. intros k. rewrite Hk.
      rewrite put_not_deleted_cons, never_deleted_cons. split.
      * intros [H|[H1 H2]]; [now left; right|]. right.
        split; [assumption|]. split; [discriminate|assumption].
      * intros [[[[d Hd] _]|H]|[H1 [_ H2]]];
          [discriminate Hd|now left|now right].
Qed.

End sequences.

Lemma empty_no_name (self : Repository3.t) :
  Spec.empty self →
  ∃ m, Store.items (Repository3.store self) = Ok m
       ∧ ∀ name, m !! ("data/" +:+ name) = None.
Proof.
  unfold Spec.empty, Store.list_. intros Hempty.
  destruct (Store.items (Repository3.store self)) as [m|e]; [|discriminate].
  exists m. split; [reflexivity|]. intros name.
  destruct (m !! ("data/" +:+ name)) as [v|] eqn:Hk; [|reflexivity].
  exfalso. simpl in Hempty. injection Hempty as Hnil.
  apply (not_elem_of_nil {| Store.name := name; Store.size := Py.len v |}).
  rewrite <- Hnil. apply list_elem_of_omap.
  exists ("data/" +:+ name, v). split; [now apply elem_of_map_to_list|].
  unfold Store.info_in. simpl fst.
  change ("data" +:+ "/") with "data/". now rewrite strip_prefix_app.
Qed.

Lemma empty_no_data (self : Repository3.t) :
  Spec.empty self →
  ∃ m, Store.items (Repository3.store self) = Ok m
       ∧ ∀ k, m !! Spec.key k = None.
Proof.
  intros (m & Hm & Hnone)%empty_no_name. exists m. split; [assumption|].
  intros k. apply Hnone.
Qed.

(** C1.  Start from an empty repository and run a sequence of put, delete
    and commit calls that ends in a commit.  Afterwards [get] returns a
    payload exactly for the ids that the sequence put and did not delete
    later, and raises ObjectNotFound exactly for the others. *)
Theorem retrievable_iff_put_not_deleted `{C : Constants}
    (self self' : Repository3.t) (ops : list Spec.op) (k : bytes) :
  Spec.empty self →
  Spec.run (ops ++ [Spec.Commit]) self = (Ok (), self') →
  ((∃ v, Repository3.get k true self' = (Ok v, self'))
     ↔ Spec.put_not_deleted (ops ++ [Spec.Commit]) k)
  ∧ (Repository3.get k true self' = (Raise ObjectNotFound, self')
     ↔ ¬ Spec.put_not_deleted (ops ++ [Spec.Commit]) k).
Proof.
  intros (m & Hm & Hnone)%empty_no_data Hrun.
  destruct (run_stored _ _ _ _ Hm Hrun) as (m' & Hm' & Hk).
  rewrite (get_eq _ _ _ Hm'). specialize (Hk k).
  rewrite Hnone in Hk.
  assert (Hiff : is_Some (m' !! Spec.key k)
                 ↔ Spec.put_not_deleted (ops ++ [Spec.Commit]) k).
  { rewrite Hk. split; [|now left].
    intros [H|[H _]]; [assumption|]. now apply is_Some_None in H. }
  destruct (m' !! Spec.key k) as [v|].
  - split.
    + split; [intros _; apply Hiff; eauto|eauto].
    + split; [discriminate|]. intros Hnot. exfalso. apply Hnot, Hiff. eauto.
  - split.
    + split; [intros [v [=]]|].
      intros Hp. apply Hiff in Hp. now apply is_Some_None in Hp.
    + split; [|reflexivity]. intros _ Hp. apply Hiff in Hp.
      now apply is_Some_None in Hp.
Qed.

Lemma retrievable_iff_put_not_deleted_witness :
  Spec.empty Sample.fresh
  ∧ Spec.run (C := Sample.constants)
      ([Spec.Put Sample.k0 Sample.foo; Spec.Put Sample.k1 Sample.bar;
        Spec.Delete Sample.k0] ++ [Spec.Commit]) Sample.fresh
    = (Ok (),
       (Spec.run (C := Sample.constants)
          [Spec.Put Sample.k0 Sample.foo; Spec.Put Sample.k1 Sample.bar;
           Spec.Delete Sample.k0; Spec.Commit] Sample.fresh).2)
  ∧ ((∃ v, Repository3.get (C := Sample.constants) Sample.k1 true
             (Spec.run (C := Sample.constants)
                [Spec.Put Sample.k0 Sample.foo; Spec.Put Sample.k1 Sample.bar;
                 Spec.Delete Sample.k0; Spec.Commit] Sample.fresh).2
           = (Ok v,
              (Spec.run (C := Sample.constants)
                 [Spec.Put Sample.k0 Sample.foo; Spec.Put Sample.k1 Sample.bar;
                  Spec.Delete Sample.k0; Spec.Commit] Sample.fresh).2))
      ↔ Spec.put_not_deleted
          ([Spec.Put Sample.k0 Sample.foo; Spec.Put Sample.k1 Sample.bar;
            Spec.Delete Sample.k0] ++ [Spec.Commit]) Sample.k1).
Proof.
  assert (Hempty : Spec.empty Sample.fresh) by (vm_compute; reflexivity).
  assert (Hrun : Spec.run (C := Sample.constants)
      ([Spec.Put Sample.k0 Sample.foo; Spec.Put Sample.k1 Sample.bar;
        Spec.Delete Sample.k0] ++ [Spec.Commit]) Sample.fresh
    = (Ok (),
       (Spec.run (C := Sample.constants)
          [Spec.Put Sample.k0 Sample.foo; Spec.Put Sample.k1 Sample.bar;
           Spec.Delete Sample.k0; Spec.Commit] Sample.fresh).2))
    by (vm_compute; reflexivity).
  split; [exact Hempty|]. split; [exact Hrun|].
  exact (proj1 (retrievable_iff_put_not_deleted (C := Sample.constants)
                  _ _ _ Sample.k1 Hempty Hrun)).
Defined.

(** ** Scanning *)

Lemma slice_to_take {A} (l : Z) (rest : list A) :
  0 ≤ l → Py.slice_to l rest = take (Z.to_nat l) rest.
Proof.
  intros Hl. unfold Py.slice_to, Py.norm_index.
  destruct (Z.ltb_spec l 0) as [?|_]; [lia|].
  destruct (decide (Z.to_nat l ≤ length rest)%nat) as [Hle|Hgt].
  - now rewrite Nat.min_l.
  - rewrite Nat.min_r by lia. rewrite !take_ge by lia. reflexivity.
Qed.

Lemma select_last (limit : option Z) (done rest : list bytes) :
  NoDup (done ++ rest) →
  Spec.select limit (last done) (done ++ rest) = Spec.select limit None rest.
Proof.
  destruct done as [|x done _] using rev_ind; [reflexivity|].
  intros Hnodup. rewrite last_snoc, <- app_assoc. simpl.
  apply select_marker.
  rewrite <- app_assoc in Hnodup. apply NoDup_app in Hnodup as (_ & Hdisj & _).
  intros Hx. apply (Hdisj x Hx). apply list_elem_of_here.
Qed.

Lemma scan_eq (self : Repository3.t) (ids : list bytes)
    (limit : option Z) (state : option bytes) :
  (Repository3.list_ None None 0 0 self).1 = Ok ids →
  Repository3.scan limit state self
  = ((λ chunk, (chunk, last chunk)) <$> Spec.select limit state ids, self).
Proof.
  intros Hids. unfold Repository3.scan, mbind, Repository3.M_bind.
  rewrite list_select, Hids. simpl.
  now destruct (Spec.select limit state ids).
Qed.

Lemma scan_all_chain (self : Repository3.t) (ids : list bytes)
    (limit : option Z) :
  (Repository3.list_ None None 0 0 self).1 = Ok ids →
  NoDup ids →
  (∀ l, limit = Some l → 1 ≤ l) →
  ∀ (fuel : nat) (done rest : list bytes),
    ids = (done ++ rest)%list →
    (length rest < fuel)%nat →
    Spec.scan_all fuel limit (last done) self = (Ok (Some rest), self).
Proof.
  intros Hids Hnodup Hlimit fuel.
  induction fuel as [|fuel IH]; intros done rest Hsplit Hfuel; [lia|].
  cbn [Spec.scan_all]. unfold mbind at 1. unfold Repository3.M_bind at 1.
  rewrite (scan_eq _ _ _ _ Hids). rewrite Hsplit at 1.
  rewrite select_last by now rewrite <- Hsplit.
  set (n := match limit with Some l => Z.to_nat l | None => length rest end).
  assert (Hchunk : Spec.select limit None rest = Ok (take n rest)).
  { unfold Spec.select, n. simpl. destruct limit as [l|].
    - rewrite slice_to_take; [reflexivity|]. specialize (Hlimit l eq_refl). lia.
    - now rewrite take_ge. }
  rewrite Hchunk. simpl.
  destruct rest as [|r rest]; [now rewrite take_nil|].
  assert (Hn : (1 ≤ n)%nat).
  { unfold n. destruct limit as [l|]; [|simpl; lia].
    specialize (Hlimit l eq_refl). lia. }
  destruct n as [|n]; [lia|]. cbn [take].
  unfold mbind, Repository3.M_bind.
  assert (Hlast : last (r :: take n rest) = last (done ++ r :: take n rest)).
  { rewrite last_app. destruct (last (r :: take n rest)) eqn:E; [reflexivity|].
    now apply last_None in E. }
  rewrite Hlast.
  rewrite (IH (done ++ r :: take n rest)%list (drop n rest)).
  - simpl. unfold mret, Repository3.M_ret. now rewrite take_drop.
  - rewrite Hsplit, <- app_assoc. simpl. now rewrite take_drop.
  - rewrite length_drop. simpl in Hfuel. lia.
Qed.

(** Ids are listed without repetition as long as every name below ["data"]
    is one that [put] wrote. *)
Lemma mapM_Ok {A B} (f : A → result B) (l : list A) (k : list B) :
  mapM f l = Ok k → Forall2 (λ x y, f x = Ok y) l k.
Proof.
  revert k. induction l as [|x l IH]; intros k; simpl.
  - intros [= <-]. constructor.
  - unfold mbind, result_bind. destruct (f x) as [y|e] eqn:Hx; [|discriminate].
    destruct (mapM f l) as [k'|e]; [|discriminate].
    intros [= <-]. constructor; [assumption|now apply IH].
Qed.

Lemma info_in_Some (ns : string) (kv : string * bytes) (info : Store.ItemInfo) :
  Store.info_in ns kv = Some info → kv.1 = (ns +:+ "/") +:+ Store.name info.
Proof.
  unfold Store.info_in.
  destruct (Store.strip_prefix (ns +:+ "/") kv.1) as [n|] eqn:Hn; [|discriminate].
  intros [= <-]. now apply strip_prefix_Some.
Qed.

Lemma omap_strip_NoDup (l : list (string * bytes)) :
  NoDup l.*1 → NoDup (Store.name <$> omap (Store.info_in "data") l).
Proof.
  induction l as [|kv l IH]; [constructor|].
  rewrite fmap_cons. intros [Hkey Hl]%NoDup_cons. specialize (IH Hl).
  change (omap (Store.info_in "data") (kv :: l))
    with (match Store.info_in "data" kv with
          | Some info => info :: omap (Store.info_in "data") l
          | None => omap (Store.info_in "data") l
          end).
  destruct (Store.info_in "data" kv) as [info|] eqn:Hinfo; [|assumption].
  rewrite fmap_cons. constructor; [|assumption].
  intros (info' & Hname & (kv' & Hkv' & Hinfo')%list_elem_of_omap)%list_elem_of_fmap.
  apply Hkey. apply list_elem_of_fmap. exists kv'. split; [|assumption].
  apply info_in_Some in Hinfo, Hinfo'. congruence.
Qed.

Lemma list_NoDup (self : Repository3.t) (ids : list bytes) :
  Spec.hex_named self →
  (Repository3.list_ None None 0 0 self).1 = Ok ids →
  NoDup ids.
Proof.
  intros Hhex Hids.
  unfold Repository3.list_, mbind, Repository3.M_bind, Repository3.store_query,
    Repository3.lift, Store.list_ in Hids.
  destruct (Store.items (Repository3.store self)) as [m|e] eqn:Hm;
    [|discriminate]. simpl in Hids.
  destruct (mapM _ _) as [k|e] eqn:HmapM; [|discriminate]. simpl in Hids.
  injection Hids as <-. apply mapM_Ok in HmapM.
  assert (Hall : Forall (λ info, ∃ id, Store.name info = Hex.bin_to_hex id)
                   (omap (Store.info_in "data") (map_to_list m))).
  { apply Forall_forall. intros info (kv & Hkv & Hinfo)%list_elem_of_omap.
    apply info_in_Some in Hinfo. destruct kv as [key v].
    apply elem_of_map_to_list in Hkv. simpl in Hinfo. subst key.
    now apply (Hhex m (Store.name info) v). }
  assert (Hnames : Store.name <$> omap (Store.info_in "data") (map_to_list m)
                   = Hex.bin_to_hex <$> k).
  { induction HmapM as [|info id infos k' Hid _ IH]; [reflexivity|].
    apply Forall_cons in Hall as [[id' Hname] Hall].
    rewrite !fmap_cons, (IH Hall). f_equal.
    rewrite Hname, hex_to_bin_to_hex in Hid. congruence. }
  apply (NoDup_fmap_1 Hex.bin_to_hex). rewrite <- Hnames.
  apply omap_strip_NoDup, NoDup_fst_map_to_list.
Qed.

Lemma empty_hex_named (self : Repository3.t) :
  Spec.empty self → Spec.hex_named self.
Proof.
  intros (m & Hm & Hnone)%empty_no_name m' name value Hm' Hlook.
  rewrite Hm in Hm'. injection Hm' as <-. now rewrite Hnone in Hlook.
Qed.

Lemma data_name_inj (a b : string) : "data/" +:+ a = "data/" +:+ b → a = b.
Proof.
  intros H. pose proof (strip_prefix_app "data/" a) as Ha.
  rewrite H, strip_prefix_app in Ha. congruence.
Qed.

Section invariant.
Context `{C : Constants}.

Lemma call_hex_named (o : Spec.op) (self self' : Repository3.t) :
  Spec.hex_named self →
  Spec.call o self = (Ok (), self') →
  Spec.hex_named self'.
Proof.
  intros Hhex Hcall. destruct o as [id data|id|]; cbn [Spec.call] in Hcall.
  - unfold Repository3.put in Hcall.
    destruct (decide (Py.len data > MAX_DATA_SIZE)); [discriminate|].
    unfold Repository3.store_call, Store.store in Hcall.
    destruct (Store.items (Repository3.store self)) as [m|e] eqn:Hm;
      [|discriminate]. simpl in Hcall. injection Hcall as <-.
    intros m' name value Hm' Hlook. unfold Store.items in Hm'. simpl in Hm'.
    pose proof Hm as [Ho _]%items_opened. rewrite Ho in Hm'. injection Hm' as <-.
    apply lookup_insert_Some in Hlook as [[Hkey _]|[_ Hlook]].
    + exists id. symmetry. now apply data_name_inj.
    + now apply (Hhex m name value).
  - unfold Repository3.delete, Repository3.try_except, Repository3.store_call,
      Store.delete in Hcall.
    destruct (Store.items (Repository3.store self)) as [m|e] eqn:Hm;
      simpl in Hcall; [|destruct (decide (e = StoreObjectNotFound)); discriminate].
    destruct (m !! _) eqn:Hold; simpl in Hcall; [|discriminate].
    injection Hcall as <-.
    intros m' name value Hm' Hlook. unfold Store.items in Hm'. simpl in Hm'.
    pose proof Hm as [Ho _]%items_opened. rewrite Ho in Hm'. injection Hm' as <-.
    apply lookup_delete_Some in Hlook as [_ Hlook].
    now apply (Hhex m name value).
  - injection Hcall as <-. assumption.
Qed.

Lemma run_hex_named (ops : list Spec.op) (self self' : Repository3.t) :
  Spec.hex_named self →
  Spec.run ops self = (Ok (), self') →
  Spec.hex_named self'.
Proof.
  revert self. induction ops as [|o ops IH]; intros self Hhex Hrun.
  - injection Hrun as <-. assumption.
  - cbn [Spec.run] in Hrun. unfold mbind, Repository3.M_bind in Hrun.
    destruct (Spec.call o self) as [[[]|e] self1] eqn:Hcall; [|discriminate].
    apply (IH self1); [|assumption]. now apply (call_hex_named o self).
Qed.

End invariant.

(** C10, as the code has it.  [scan(limit, state)] is [list(limit,
    marker=state)] paired with the last id of the answer, or None for an
    empty answer, and it raises what [list] raises.  When limit is None or at
    least 1, and the names below ["data"] are those [put] wrote, chaining the
    returned state from None until an answer is empty yields the ids of
    [list()], in that order, none of them twice. *)
Theorem scan_is_list_and_chains (self : Repository3.t)
    (limit : option Z) (state : option bytes) :
  Repository3.scan limit state self
  = match Repository3.list_ limit state 0 0 self with
    | (Ok ids, self') => (Ok (ids, last ids), self')
    | (Raise e, self') => (Raise e, self')
    end
  ∧ ∀ (ids : list bytes) (fuel : nat),
      Spec.hex_named self →
      (Repository3.list_ None None 0 0 self).1 = Ok ids →
      (∀ l, limit = Some l → 1 ≤ l) →
      (length ids < fuel)%nat →
      Spec.scan_all fuel limit None self = (Ok (Some ids), self) ∧ NoDup ids.
Proof.
  split.
  - unfold Repository3.scan, mbind, Repository3.M_bind.
    now destruct (Repository3.list_ limit state 0 0 self) as [[ids|e] self'].
  - intros ids fuel Hhex Hids Hlimit Hfuel.
    pose proof (list_NoDup _ _ Hhex Hids) as Hnodup.
    split; [|assumption].
    now apply (scan_all_chain self ids limit Hids Hnodup Hlimit fuel [] ids).
Qed.

Lemma scan_is_list_and_chains_witness :
  Spec.hex_named Sample.three
  ∧ (Repository3.list_ None None 0 0 Sample.three).1
    = Ok [Sample.k2; Sample.k1; Sample.k0]
  ∧ (∀ l, Some 2 = Some l → 1 ≤ l)
  ∧ (length [Sample.k2; Sample.k1; Sample.k0] < 4)%nat
  ∧ Spec.scan_all 4 (Some 2) None Sample.three
    = (Ok (Some [Sample.k2; Sample.k1; Sample.k0]), Sample.three)
  ∧ NoDup [Sample.k2; Sample.k1; Sample.k0].
Proof.
  assert (Hhex : Spec.hex_named Sample.three).
  { apply (run_hex_named (C := Sample.constants)
             [Spec.Put Sample.k0 Sample.foo; Spec.Put Sample.k1 Sample.bar;
              Spec.Put Sample.k2 Sample.bar] Sample.fresh).
    - apply empty_hex_named. vm_compute. reflexivity.
    - vm_compute. reflexivity. }
  assert (Hids : (Repository3.list_ None None 0 0 Sample.three).1
                 = Ok [Sample.k2; Sample.k1; Sample.k0])
    by (vm_compute; reflexivity).
  assert (Hlimit : ∀ l, Some 2 = Some l → 1 ≤ l) by (intros l [= <-]; lia).
  assert (Hfuel : (length [Sample.k2; Sample.k1; Sample.k0] < 4)%nat)
    by (simpl; lia).
  split; [exact Hhex|]. split; [exact Hids|]. split; [exact Hlimit|].
  split; [exact Hfuel|].
  exact (proj2 (scan_is_list_and_chains Sample.three (Some 2) None)
           _ 4%nat Hhex Hids Hlimit Hfuel).
Defined.

(** C10 as stated fails for a limit below 1.  With limit 0 every answer is
    empty and the returned state is None again, so the chain ends without an
    id although three are stored; with limit -1 the last id is never
    returned. *)
Lemma scan_chain_misses_ids_below_limit_one :
  (Repository3.list_ None None 0 0 Sample.three).1
    = Ok [Sample.k2; Sample.k1; Sample.k0]
  ∧ Repository3.scan (Some 0) None Sample.three
    = (Ok ([], None), Sample.three)
  ∧ Spec.scan_all 4 (Some 0) None Sample.three
    = (Ok (Some []), Sample.three)
  ∧ Spec.scan_all 4 (Some (-1)) None Sample.three
    = (Ok (Some [Sample.k2; Sample.k1]), Sample.three).
Proof. repeat split; vm_compute; reflexivity. Qed.

(** ** Opening a repository *)

Section opening.
Context `{C : Constants}.

(** Whatever [open] answers, it leaves the handle of the store open over
    what it found on disk. *)
Lemma open_init_store (m : gmap string bytes) :
  Repository3.store (Repository3.open (Repository3.init (Some m))).2
  = {| Store.backend := Some m; Store.opened := true |}.
Proof.
  unfold_open. cbn_open.
  destruct (m !! "config/readme") as [readme|]; [|reflexivity].
  destruct (Py.decode readme) as [s|]; [|reflexivity].
  case_decide; [reflexivity|]. cbn_open.
  destruct (m !! "config/version") as [ver|]; [|reflexivity]. cbn_open.
  destruct (Py.decode ver) as [vs|]; [|reflexivity].
  destruct (Py.int vs) as [v|]; [|reflexivity].
  case_decide; [reflexivity|]. cbn_open.
  destruct (m !! "config/id") as [idb|]; [|reflexivity]. cbn_open.
  destruct (Py.decode idb) as [ids|]; [|reflexivity].
  destruct (Hex.hex_to_bin ids (Some 32)) as [i|]; reflexivity.
Qed.

(** The answer of [open] depends on the three config entries only. *)
Lemma open_init_config (m1 m2 : gmap string bytes) :
  m1 !! "config/readme" = m2 !! "config/readme" →
  m1 !! "config/version" = m2 !! "config/version" →
  m1 !! "config/id" = m2 !! "config/id" →
  (Repository3.open (Repository3.init (Some m1))).1
  = (Repository3.open (Repository3.init (Some m2))).1.
Proof.
  intros H1 H2 H3. unfold_open. cbn_open. rewrite H1.
  destruct (m2 !! "config/readme") as [readme|]; [|reflexivity].
  destruct (Py.decode readme) as [s|]; [|reflexivity].
  case_decide; [reflexivity|]. cbn_open. rewrite H2.
  destruct (m2 !! "config/version") as [ver|]; [|reflexivity]. cbn_open.
  destruct (Py.decode ver) as [vs|]; [|reflexivity].
  destruct (Py.int vs) as [v|]; [|reflexivity].
  case_decide; [reflexivity|]. cbn_open. rewrite H3.
  destruct (m2 !! "config/id") as [idb|]; [|reflexivity]. cbn_open.
  destruct (Py.decode idb) as [ids|]; [|reflexivity].
  destruct (Hex.hex_to_bin ids (Some 32)) as [i|]; reflexivity.
Qed.

Lemma reopen_items (self : Repository3.t) (m : gmap string bytes) :
  Store.backend (Repository3.store self) = Some m →
  Store.items (Repository3.store (Spec.reopen self)) = Ok m.
Proof.
  intros Hb. unfold Spec.reopen. rewrite Hb, open_init_store. reflexivity.
Qed.

Lemma key_not_config (k : bytes) :
  Spec.key k ≠ "config/readme" ∧ Spec.key k ≠ "config/version"
  ∧ Spec.key k ≠ "config/id".
Proof. unfold Spec.key. repeat split; discriminate. Qed.

End opening.

(** ** Commit, durability and rollback *)

(** C2, as the code has it.  A put or delete that returns has already
    changed what the store holds: a later open of the repository succeeds as
    it would have before and sees the change, with no commit in between;
    [commit] itself changes nothing. *)
Theorem mutations_immediate_commit_noop `{C : Constants}
    (self : Repository3.t) (k v : bytes) :
  Spec.ready self →
  (Repository3.open
     (Repository3.init (Store.backend (Repository3.store self)))).1 = Ok () →
  (Py.len v ≤ MAX_DATA_SIZE →
     (Repository3.open
        (Repository3.init
           (Store.backend
              (Repository3.store (Repository3.put k v self).2)))).1 = Ok ()
     ∧ Repository3.get k true (Spec.reopen (Repository3.put k v self).2)
       = (Ok v, Spec.reopen (Repository3.put k v self).2))
  ∧ (Spec.stored self k ≠ None →
     (Repository3.open
        (Repository3.init
           (Store.backend
              (Repository3.store (Repository3.delete k self).2)))).1 = Ok ()
     ∧ Repository3.get k true (Spec.reopen (Repository3.delete k self).2)
       = (Raise ObjectNotFound, Spec.reopen (Repository3.delete k self).2))
  ∧ Repository3.commit self = (Ok (), self).
Proof.
  intros [m Hm] Hopen.
  pose proof Hm as [_ Hb]%items_opened. rewrite Hb in Hopen.
  destruct (key_not_config k) as (Hr & Hv & Hi).
  split; [|split; [|reflexivity]].
  - intros Hsize. rewrite (put_eq _ _ _ _ Hm Hsize). simpl. split.
    + rewrite <- Hopen. apply open_init_config; now rewrite lookup_insert_ne.
    + rewrite (get_eq _ (<[Spec.key k:=v]> m)) by now apply reopen_items.
      now rewrite lookup_insert_eq.
  - intros Hstored. unfold Spec.stored in Hstored. rewrite Hm in Hstored.
    rewrite (delete_eq _ _ _ Hm).
    destruct (m !! Spec.key k) as [old|]; [|congruence]. simpl. split.
    + rewrite <- Hopen. apply open_init_config; now rewrite lookup_delete_ne.
    + rewrite (get_eq _ (delete (Spec.key k) m)) by now apply reopen_items.
      now rewrite lookup_delete_eq.
Qed.

Lemma mutations_immediate_commit_noop_witness :
  Spec.ready Sample.three
  ∧ (Repository3.open (C := Sample.constants)
       (Repository3.init (Store.backend (Repository3.store Sample.three)))).1
    = Ok ()
  ∧ (Py.len Sample.foo ≤ MAX_DATA_SIZE (Constants := Sample.constants) →
     (Repository3.open (C := Sample.constants)
        (Repository3.init
           (Store.backend
              (Repository3.store
                 (Repository3.put (C := Sample.constants)
                    [x02] Sample.foo Sample.three).2)))).1 = Ok ()
     ∧ Repository3.get (C := Sample.constants) [x02] true
         (Spec.reopen (C := Sample.constants)
            (Repository3.put (C := Sample.constants)
               [x02] Sample.foo Sample.three).2)
       = (Ok Sample.foo,
          Spec.reopen (C := Sample.constants)
            (Repository3.put (C := Sample.constants)
               [x02] Sample.foo Sample.three).2)).
Proof.
  assert (Hready : Spec.ready Sample.three) by (eexists; vm_compute; reflexivity).
  assert (Hopen : (Repository3.open (C := Sample.constants)
       (Repository3.init (Store.backend (Repository3.store Sample.three)))).1
    = Ok ()) by (vm_compute; reflexivity).
  split; [exact Hready|]. split; [exact Hopen|].
  exact (proj1 (mutations_immediate_commit_noop (C := Sample.constants)
                  Sample.three [x02] Sample.foo Hready Hopen)).
Defined.

(** C2 as stated fails: with no commit issued, a later open does not find
    [k0] before the put and finds the payload after it; and it no longer
    finds [k1] after a delete. *)
Lemma put_visible_to_later_open_without_commit :
  Repository3.get (C := Sample.constants) Sample.k0 true
    (Spec.reopen (C := Sample.constants) Sample.fresh)
  = (Raise ObjectNotFound, Spec.reopen (C := Sample.constants) Sample.fresh)
  ∧ (Repository3.put (C := Sample.constants)
       Sample.k0 Sample.foo Sample.fresh).1 = Ok ()
  ∧ (Repository3.get (C := Sample.constants) Sample.k0 true
       (Spec.reopen (C := Sample.constants)
          (Repository3.put (C := Sample.constants)
             Sample.k0 Sample.foo Sample.fresh).2)).1
    = Ok Sample.foo
  ∧ (Repository3.get (C := Sample.constants) Sample.k1 true
       (Spec.reopen (C := Sample.constants) Sample.three)).1
    = Ok Sample.bar
  ∧ (Repository3.get (C := Sample.constants) Sample.k1 true
       (Spec.reopen (C := Sample.constants)
          (Repository3.delete Sample.k1 Sample.three).2)).1
    = Raise ObjectNotFound.
Proof. repeat split; vm_compute; reflexivity. Qed.

(** C3, as the code has it.  The class has no rollback: the call raises
    AttributeError and leaves the repository alone.  A put takes effect at
    once, so after put(k, v), commit, put(k, w) a get(k) returns w. *)
Theorem no_rollback_last_put_wins `{C : Constants}
    (self : Repository3.t) (k v w : bytes) :
  Spec.ready self →
  Py.len v ≤ MAX_DATA_SIZE →
  Py.len w ≤ MAX_DATA_SIZE →
  (Repository3.put k v;; Repository3.commit;; Repository3.put k w;;
   Repository3.get k true) self
  = (Ok w, (Repository3.put k w (Repository3.put k v self).2).2)
  ∧ (Repository3.put k v;; Repository3.commit;; Repository3.put k w;;
     Repository3.rollback) self
    = (Raise AttributeError, (Repository3.put k w (Repository3.put k v self).2).2).
Proof.
  intros [m Hm] Hv Hw.
  unfold mbind, Repository3.M_bind, Repository3.commit, mret, Repository3.M_ret,
    Repository3.rollback, Repository3.raise.
  rewrite (put_eq _ _ _ _ Hm Hv). simpl.
  pose proof (items_with_items self m (<[Spec.key k:=v]> m) Hm) as Hm1.
  rewrite (put_eq _ _ _ _ Hm1 Hw). simpl.
  rewrite (get_eq _ _ _ (items_with_items _ _ _ Hm1)).
  now rewrite lookup_insert_eq.
Qed.

Lemma no_rollback_last_put_wins_witness :
  Spec.ready Sample.fresh
  ∧ Py.len Sample.foo ≤ MAX_DATA_SIZE (Constants := Sample.constants)
  ∧ Py.len Sample.bar ≤ MAX_DATA_SIZE (Constants := Sample.constants)
  ∧ (Repository3.put (C := Sample.constants) Sample.k0 Sample.foo;;
     Repository3.commit;;
     Repository3.put (C := Sample.constants) Sample.k0 Sample.bar;;
     Repository3.get (C := Sample.constants) Sample.k0 true) Sample.fresh
    = (Ok Sample.bar,
       (Repository3.put (C := Sample.constants) Sample.k0 Sample.bar
          (Repository3.put (C := Sample.constants) Sample.k0 Sample.foo
             Sample.fresh).2).2).
Proof.
  assert (Hready : Spec.ready Sample.fresh) by (eexists; vm_compute; reflexivity).
  assert (Hfoo : Py.len Sample.foo ≤ MAX_DATA_SIZE (Constants := Sample.constants))
    by (vm_compute; discriminate).
  assert (Hbar : Py.len Sample.bar ≤ MAX_DATA_SIZE (Constants := Sample.constants))
    by (vm_compute; discriminate).
  split; [exact Hready|]. split; [exact Hfoo|]. split; [exact Hbar|].
  exact (proj1 (no_rollback_last_put_wins (C := Sample.constants)
                  Sample.fresh Sample.k0 Sample.foo Sample.bar
                  Hready Hfoo Hbar)).
Defined.

(** C3 as stated fails: after put(k0, foo), commit, put(k0, bar) the call of
    rollback raises AttributeError, and a caller that goes on to get(k0)
    receives bar, not foo. *)
Lemma rollback_absent_and_put_not_undone :
  ((Repository3.put (C := Sample.constants) Sample.k0 Sample.foo;;
    Repository3.commit;;
    Repository3.put (C := Sample.constants) Sample.k0 Sample.bar;;
    Repository3.rollback;;
    Repository3.get (C := Sample.constants) Sample.k0 true) Sample.fresh).1
  = Raise AttributeError
  ∧ ((Repository3.put (C := Sample.constants) Sample.k0 Sample.foo;;
      Repository3.commit;;
      Repository3.put (C := Sample.constants) Sample.k0 Sample.bar;;
      Repository3.try_except Repository3.rollback AttributeError (mret ());;
      Repository3.get (C := Sample.constants) Sample.k0 true) Sample.fresh).1
    = Ok Sample.bar
  ∧ Sample.bar ≠ Sample.foo.
Proof.
  split; [vm_compute; reflexivity|].
  split; [vm_compute; reflexivity|discriminate].
Qed.

(** * Further properties of the class *)

(** ** Texts written to and read from the store *)

Lemma utf8_valid_ascii (bs : bytes) :
  Forall (λ b, Py.in_range 0 127 b = true) bs →
  Py.utf8_valid (length bs) bs = true.
Proof.
  induction 1 as [|b bs Hb _ IH]; [reflexivity|].
  cbn [length Py.utf8_valid]. now rewrite Hb.
Qed.

Lemma decode_encode (s : string) :
  Text.ascii_only s → Py.decode (Py.encode s) = Ok s.
Proof.
  intros Hs. unfold Py.decode. rewrite (utf8_valid_ascii _ Hs).
  unfold Py.encode. rewrite <- list_fmap_compose. f_equal.
  rewrite <- (string_of_list_ascii_of_string s) at 2. f_equal.
  rewrite <- (list_fmap_id (list_ascii_of_string s)) at 2.
  apply list_fmap_ext. intros _ c _. apply ascii_of_byte_of_ascii.
Qed.

Lemma hexlify_byte_ascii (b : byte) :
  Forall (λ c, Py.in_range 0 127 (byte_of_ascii c) = true) (Hex.hexlify_byte b).
Proof. destruct b; repeat constructor. Qed.

Lemma bin_to_hex_ascii (id : bytes) : Text.ascii_only (Hex.bin_to_hex id).
Proof.
  unfold Text.ascii_only, Py.encode, Hex.bin_to_hex.
  rewrite list_ascii_of_string_of_list_ascii. apply Forall_fmap.
  induction id as [|b id IH]; [constructor|].
  change (Hex.hexlify (b :: id)) with (Hex.hexlify_byte b ++ Hex.hexlify id)%list.
  apply Forall_app. split; [apply hexlify_byte_ascii|exact IH].
Qed.

Lemma hex_to_bin_to_hex_length (id : bytes) (n : Z) :
  Hex.hex_to_bin (Hex.bin_to_hex id) (Some n)
  = if decide (Py.len id = n) then Ok id else Raise ValueError.
Proof.
  unfold Hex.hex_to_bin, Hex.bin_to_hex.
  rewrite list_ascii_of_string_of_list_ascii, unhexlify_hexlify.
  destruct (decide (Py.len id = n)).
  - now rewrite decide_False by auto.
  - now rewrite decide_True.
Qed.

(** ** What [open] decides *)

Section open_outcomes.
Context `{C : Constants}.

Lemma open_unfold (self : Repository3.t) (m : gmap string bytes) :
  Store.backend (Repository3.store self) = Some m →
  Store.opened (Repository3.store self) = false →
  Repository3.opened self = false →
  Repository3.open self =
    match Config.read_text m "config/readme" with
    | Raise e =>
      (Raise e, Config.opened_over m (Repository3.version self)
                  (Repository3.id self) false)
    | Ok readme =>
      if decide (readme ≠ REPOSITORY_README)
      then (Raise InvalidRepository,
            Config.opened_over m (Repository3.version self)
              (Repository3.id self) false)
      else
        match Config.read_text m "config/version" ≫= Py.int with
        | Raise e =>
          (Raise e, Config.opened_over m (Repository3.version self)
                      (Repository3.id self) false)
        | Ok v =>
          if decide (v ∉ Repository3.acceptable_repo_versions)
          then (Raise InvalidRepositoryConfig,
                Config.opened_over m (Some v) (Repository3.id self) false)
          else
            match Config.read_text m "config/id"
                  ≫= λ hex, Hex.hex_to_bin hex (Some 32) with
            | Raise e =>
              (Raise e, Config.opened_over m (Some v) (Repository3.id self) false)
            | Ok i => (Ok (), Config.opened_over m (Some v) (Some i) true)
            end
        end
    end.
Proof.
  destruct self as [[b o] ver i op]. simpl. intros -> -> ->.
  unfold Config.read_text, Config.opened_over.
  unfold_open. cbn_open.
  destruct (m !! "config/readme") as [readme|]; [|reflexivity].
  destruct (Py.decode readme) as [s|]; [|reflexivity].
  case_decide; [reflexivity|]. cbn_open.
  destruct (m !! "config/version") as [vb|]; [|reflexivity]. cbn_open.
  destruct (Py.decode vb) as [vs|]; [|reflexivity]. cbn_open.
  destruct (Py.int vs) as [v|]; [|reflexivity].
  case_decide; [reflexivity|]. cbn_open.
  destruct (m !! "config/id") as [idb|]; [|reflexivity]. cbn_open.
  destruct (Py.decode idb) as [ids|]; [|reflexivity]. cbn_open.
  destruct (Hex.hex_to_bin ids (Some 32)) as [i'|]; reflexivity.
Qed.

End open_outcomes.

(** ** Creating and opening *)

Lemma list_empty_of_no_name (s : Store.t) (m : gmap string bytes) :
  Store.items s = Ok m →
  (∀ name, m !! ("data/" +:+ name) = None) →
  Store.list_ "data" s = Ok [].
Proof.
  intros Hm Hnone. unfold Store.list_. rewrite Hm. simpl. f_equal.
  apply elem_of_nil_inv. intros info (kv & Hkv & Hinfo)%list_elem_of_omap.
  apply info_in_Some in Hinfo. destruct kv as [key v].
  apply elem_of_map_to_list in Hkv. simpl in Hinfo. subst key.
  change ("data" +:+ "/") with "data/" in Hkv. now rewrite Hnone in Hkv.
Qed.

Lemma list_of_empty (self : Repository3.t) :
  Spec.empty self → Repository3.list_ None None 0 0 self = (Ok [], self).
Proof.
  intros Hempty.
  unfold Repository3.list_, mbind, Repository3.M_bind, Repository3.store_query,
    Repository3.lift. now rewrite Hempty.
Qed.

Section creating.
Context `{C : Constants}.

Lemma create_init (urandom32 : bytes) :
  Repository3.create urandom32 (Repository3.init None)
  = (Ok (),
     {| Repository3.store :=
          {| Store.backend := Some (Config.written urandom32);
             Store.opened := false |};
        Repository3.version := Some 3;
        Repository3.id := None;
        Repository3.opened := false |}).
Proof. reflexivity. Qed.

(** [open] over any disk whose three config entries are those [create]
    wrote. *)
Lemma open_over_written (self : Repository3.t) (m : gmap string bytes)
    (urandom32 : bytes) :
  Store.backend (Repository3.store self) = Some m →
  Store.opened (Repository3.store self) = false →
  Repository3.opened self = false →
  m !! "config/readme" = Some (Py.encode REPOSITORY_README) →
  m !! "config/version" = Some (Py.encode (Py.str 3)) →
  m !! "config/id" = Some (Py.encode (Hex.bin_to_hex urandom32)) →
  Py.len urandom32 = 32 →
  Py.decode (Py.encode REPOSITORY_README) = Ok REPOSITORY_README →
  Repository3.open self
  = (Ok (), Config.opened_over m (Some 3) (Some urandom32) true).
Proof.
  intros Hb Ho Hop Hr Hv Hi Hlen Hreadme.
  rewrite (open_unfold _ m Hb Ho Hop). unfold Config.read_text.
  rewrite Hr, Hreadme. rewrite decide_False by auto.
  rewrite Hv.
  change (Py.decode (Py.encode (Py.str 3)) ≫= Py.int) with (@Ok Z 3).
  cbv beta iota.
  rewrite decide_False by (intros H; apply H; apply list_elem_of_here).
  rewrite Hi, (decode_encode _ (bin_to_hex_ascii urandom32)).
  simpl. rewrite hex_to_bin_to_hex_length. now rewrite decide_True.
Qed.

Lemma written_config (urandom32 : bytes) :
  Config.written urandom32 !! "config/readme"
    = Some (Py.encode REPOSITORY_README)
  ∧ Config.written urandom32 !! "config/version"
    = Some (Py.encode (Py.str 3))
  ∧ Config.written urandom32 !! "config/id"
    = Some (Py.encode (Hex.bin_to_hex urandom32)).
Proof.
  unfold Config.written. split; [|split].
  - rewrite !lookup_insert_ne by discriminate. apply lookup_insert_eq.
  - rewrite lookup_insert_ne by discriminate. apply lookup_insert_eq.
  - apply lookup_insert_eq.
Qed.

(** X1.  On a URL that holds nothing, [create] followed by [open] succeeds
    when the drawn id has 32 bytes and the readme text survives
    encode/decode: the repository is opened, has version 3 and the drawn id,
    and [list()] is empty. *)
Theorem create_then_open (urandom32 : bytes) :
  Py.len urandom32 = 32 →
  Py.decode (Py.encode REPOSITORY_README) = Ok REPOSITORY_README →
  (Repository3.create urandom32;; Repository3.open) (Repository3.init None)
  = (Ok (), Config.opened_over (Config.written urandom32)
              (Some 3) (Some urandom32) true)
  ∧ Repository3.list_ None None 0 0
      (Config.opened_over (Config.written urandom32)
         (Some 3) (Some urandom32) true)
    = (Ok [], Config.opened_over (Config.written urandom32)
                (Some 3) (Some urandom32) true).
Proof.
  intros Hlen Hreadme. split.
  - unfold mbind at 1. unfold Repository3.M_bind. rewrite create_init.
    destruct (written_config urandom32) as (Hr & Hv & Hi).
    now apply (open_over_written _ (Config.written urandom32) urandom32).
  - apply list_of_empty. apply (list_empty_of_no_name _ (Config.written urandom32));
      [reflexivity|].
    intros name. unfold Config.written.
    rewrite !lookup_insert_ne by discriminate. apply lookup_empty.
Qed.

End creating.

Lemma create_then_open_witness :
  Py.len (replicate 32 x07) = 32
  ∧ Py.decode (Py.encode (REPOSITORY_README (Constants := Sample.constants)))
    = Ok (REPOSITORY_README (Constants := Sample.constants))
  ∧ (Repository3.create (C := Sample.constants) (replicate 32 x07);;
     Repository3.open (C := Sample.constants)) (Repository3.init None)
    = (Ok (), Config.opened_over
                (Config.written (C := Sample.constants) (replicate 32 x07))
                (Some 3) (Some (replicate 32 x07)) true).
Proof.
  assert (Hlen : Py.len (replicate 32 x07) = 32) by reflexivity.
  assert (Hreadme :
    Py.decode (Py.encode (REPOSITORY_README (Constants := Sample.constants)))
    = Ok (REPOSITORY_README (Constants := Sample.constants)))
    by (vm_compute; reflexivity).
  split; [exact Hlen|]. split; [exact Hreadme|].
  exact (proj1 (create_then_open (C := Sample.constants)
                  (replicate 32 x07) Hlen Hreadme)).
Defined.

(** ** Refused opens, and closing *)

Section refusing.
Context `{C : Constants}.

(** X2.  [open] on a store whose [config/readme] is not the readme text of
    a repository raises InvalidRepository.  Nothing is assigned to the
    object, and the handle of the store stays open: there is no call of
    [close] on this path. *)
Theorem open_rejects_other_readme (self : Repository3.t)
    (m : gmap string bytes) (text : string) :
  Store.backend (Repository3.store self) = Some m →
  Store.opened (Repository3.store self) = false →
  Repository3.opened self = false →
  Config.read_text m "config/readme" = Ok text →
  text ≠ REPOSITORY_README →
  Repository3.open self
  = (Raise InvalidRepository,
     Config.opened_over m (Repository3.version self) (Repository3.id self) false).
Proof.
  intros Hb Ho Hop Hr Hne. rewrite (open_unfold _ m Hb Ho Hop), Hr.
  now rewrite decide_True.
Qed.


End refusing.

Lemma open_rejects_other_readme_witness :
  Store.backend (Repository3.store (Repository3.init (Some Cases.foreign)))
    = Some Cases.foreign
  ∧ Store.opened (Repository3.store (Repository3.init (Some Cases.foreign)))
    = false
  ∧ Repository3.opened (Repository3.init (Some Cases.foreign)) = false
  ∧ Config.read_text Cases.foreign "config/readme" = Ok "Not a repository"
  ∧ "Not a repository" ≠ REPOSITORY_README (Constants := Sample.constants)
  ∧ Repository3.open (C := Sample.constants)
      (Repository3.init (Some Cases.foreign))
    = (Raise InvalidRepository, Config.opened_over Cases.foreign None None false).
Proof.
  assert (Hr : Config.read_text Cases.foreign "config/readme"
               = Ok "Not a repository") by (vm_compute; reflexivity).
  assert (Hne : "Not a repository"
                ≠ REPOSITORY_README (Constants := Sample.constants))
    by discriminate.
  split; [reflexivity|]. split; [reflexivity|]. split; [reflexivity|].
  split; [exact Hr|]. split; [exact Hne|].
  exact (open_rejects_other_readme (C := Sample.constants)
           (Repository3.init (Some Cases.foreign)) Cases.foreign _
           eq_refl eq_refl eq_refl Hr Hne).
Defined.


(** X4.  [close] on an opened repository closes the handle of the store,
    leaves what is on disk alone and clears [opened]; a second [close] in a
    row then changes nothing and does not raise. *)
Theorem close_releases_once (self : Repository3.t) (m : gmap string bytes) :
  Repository3.opened self = true →
  Store.items (Repository3.store self) = Ok m →
  Repository3.close self
  = (Ok (),
     {| Repository3.store := {| Store.backend := Some m; Store.opened := false |};
        Repository3.version := Repository3.version self;
        Repository3.id := Repository3.id self;
        Repository3.opened := false |})
  ∧ (Repository3.close;; Repository3.close) self = Repository3.close self.
Proof.
  intros Hop [Ho Hb]%items_opened. destruct self as [[b o] v i op].
  simpl in *. subst. split; reflexivity.
Qed.

(** ** The context manager *)

Section managed.
Context `{C : Constants}.

Lemma put_opened_over (m : gmap string bytes) (v : option Z) (i : option bytes)
    (o : bool) (k data : bytes) :
  Py.len data ≤ MAX_DATA_SIZE →
  Repository3.put k data (Config.opened_over m v i o)
  = (Ok (), Config.opened_over (<[Spec.key k := data]> m) v i o).
Proof.
  intros Hsize.
  now rewrite (put_eq (Config.opened_over m v i o) m k data eq_refl Hsize).
Qed.

(** X5.  A [with] block that creates the repository, puts one object and
    leaves, followed by a [with] block of a new object over the same URL
    that does not create: the second block opens the repository and [get]
    returns the payload.  The first object ends with [created] set and
    [do_create] cleared, closed, with version 3 and the drawn id. *)
Theorem with_block_persists (urandom32 other32 k v : bytes)
    (ao ao' : bool) (sq sq' : option Z) :
  Py.len urandom32 = 32 →
  Py.decode (Py.encode REPOSITORY_README) = Ok REPOSITORY_README →
  Py.len v ≤ MAX_DATA_SIZE →
  (Managed.__enter__ urandom32;;
   Managed.call (Repository3.put k v);;
   Managed.__exit__) (Managed.init None true ao sq)
  = (Ok (),
     {| Managed.base :=
          {| Repository3.store :=
               {| Store.backend :=
                    Some (<[Spec.key k := v]> (Config.written urandom32));
                  Store.opened := false |};
             Repository3.version := Some 3;
             Repository3.id := Some urandom32;
             Repository3.opened := false |};
        Managed.do_create := false;
        Managed.created := true;
        Managed.append_only := ao;
        Managed.storage_quota := sq;
        Managed.storage_quota_use := 0 |})
  ∧ ((Managed.__enter__ other32;;
      Managed.call (Repository3.get k true))
       (Managed.init
          (Some (<[Spec.key k := v]> (Config.written urandom32)))
          false ao' sq')).1
    = Ok v.
Proof.
  intros Hlen Hreadme Hsize.
  destruct (written_config urandom32) as (Hr & Hv & Hi).
  destruct (key_not_config k) as (Hkr & Hkv & Hki).
  split.
  - unfold Managed.__enter__, Managed.__exit__, Managed.init, Managed.call,
      mbind, Managed.M_bind, Managed.get_do_create, Managed.set_do_create,
      Managed.set_created, mret, Managed.M_ret.
    cbn [Managed.do_create Managed.base Managed.created Managed.append_only
         Managed.storage_quota Managed.storage_quota_use].
    rewrite create_init. cbn [fst snd Managed.base Managed.do_create
      Managed.created Managed.append_only Managed.storage_quota
      Managed.storage_quota_use].
    rewrite (open_over_written _ (Config.written urandom32) urandom32)
      by (assumption || reflexivity).
    cbn [fst snd Managed.base Managed.do_create
      Managed.created Managed.append_only Managed.storage_quota
      Managed.storage_quota_use].
    rewrite put_opened_over by assumption.
    reflexivity.
  - unfold Managed.__enter__, Managed.init, Managed.call,
      mbind, Managed.M_bind, Managed.get_do_create, mret, Managed.M_ret.
    cbn [Managed.do_create Managed.base Managed.created Managed.append_only
         Managed.storage_quota Managed.storage_quota_use].
    rewrite (open_over_written _
               (<[Spec.key k := v]> (Config.written urandom32)) urandom32);
      try assumption; try reflexivity;
      try (rewrite lookup_insert_ne by assumption; assumption).
    cbn [fst snd Managed.base].
    erewrite get_eq by reflexivity. now rewrite lookup_insert_eq.
Qed.

(** X6.  [info] on an object that was never opened raises AttributeError,
    as [id] is only assigned by [open]; after a [with] block entered with
    [create], it reports the drawn id, version 3, a quota use of 0 and the
    quota and append-only setting the object was made with. *)
Theorem info_needs_open (urandom32 : bytes) (ao : bool) (sq : option Z) :
  Py.len urandom32 = 32 →
  Py.decode (Py.encode REPOSITORY_README) = Ok REPOSITORY_README →
  (∀ disk create,
     (Managed.info (Managed.init disk create ao sq)).1 = Raise AttributeError)
  ∧ ((Managed.__enter__ urandom32;; Managed.info)
       (Managed.init None true ao sq)).1
    = Ok {| Managed.info_id := urandom32;
            Managed.info_version := Some 3;
            Managed.info_storage_quota_use := 0;
            Managed.info_storage_quota := sq;
            Managed.info_append_only := ao |}.
Proof.
  intros Hlen Hreadme. split; [reflexivity|].
  destruct (written_config urandom32) as (Hr & Hv & Hi).
  unfold Managed.__enter__, Managed.init, Managed.call, Managed.info,
    mbind, Managed.M_bind, Managed.get_do_create, Managed.set_do_create,
    Managed.set_created, mret, Managed.M_ret.
  cbn [Managed.do_create Managed.base Managed.created Managed.append_only
       Managed.storage_quota Managed.storage_quota_use].
  rewrite create_init. cbn [fst snd Managed.base Managed.do_create
    Managed.created Managed.append_only Managed.storage_quota
    Managed.storage_quota_use].
  rewrite (open_over_written _ (Config.written urandom32) urandom32)
    by (assumption || reflexivity).
  reflexivity.
Qed.

End managed.

(** ** Changing the id, and the repository key *)

Section ids_and_keys.
Context `{C : Constants}.

Lemma open_ok_inv (m : gmap string bytes) :
  (Repository3.open (Repository3.init (Some m))).1 = Ok () →
  Config.read_text m "config/readme" = Ok REPOSITORY_README
  ∧ Config.read_text m "config/version" ≫= Py.int = Ok 3.
Proof.
  rewrite (open_unfold _ m) by reflexivity.
  destruct (Config.read_text m "config/readme") as [readme|]; [|discriminate].
  case_decide as Hreadme; [discriminate|]. subst readme.
  destruct (Config.read_text m "config/version" ≫= Py.int) as [v|];
    [|discriminate].
  case_decide as Hv; [discriminate|]. intros _. split; [reflexivity|].
  unfold Repository3.acceptable_repo_versions in Hv.
  apply elem_of_cons in Hv as [->|Hv]; [reflexivity|].
  now apply elem_of_nil in Hv.
Qed.

(** X7.  On an opened repository whose disk state a later open accepts,
    [_set_id] with a 32-byte id assigns the id and rewrites [config/id], so
    that a later open succeeds and reads that id back. *)
Theorem set_id_read_back (self : Repository3.t) (m : gmap string bytes)
    (id : bytes) :
  Repository3.opened self = true →
  Store.items (Repository3.store self) = Ok m →
  (Repository3.open (Repository3.init (Some m))).1 = Ok () →
  Py.len id = 32 →
  (Repository3._set_id id self).1 = Ok ()
  ∧ Repository3.id (Repository3._set_id id self).2 = Some id
  ∧ Repository3.open
      (Repository3.init
         (Store.backend (Repository3.store (Repository3._set_id id self).2)))
    = (Ok (),
       Config.opened_over
         (<["config/id" := Py.encode (Hex.bin_to_hex id)]> m)
         (Some 3) (Some id) true).
Proof.
  intros Hop Hm [Hr Hv]%open_ok_inv Hlen.
  pose proof Hm as [Ho Hb]%items_opened.
  destruct self as [[b o] ver i op]. simpl in *. subst.
  unfold Repository3._set_id, mbind, Repository3.M_bind,
    Repository3.get_opened, Repository3.set_id, Repository3.store_call,
    Repository3.raise, Store.store, Store.items.
  cbn [Repository3.opened negb Repository3.store Store.opened Store.backend
       Repository3.version Repository3.id].
  rewrite decide_False by auto. cbn [Repository3.opened negb Repository3.store
    Store.opened Store.backend Repository3.version Repository3.id mbind
    result_bind fst snd].
  split; [reflexivity|]. split; [reflexivity|].
  rewrite (open_unfold _ (<["config/id" := Py.encode (Hex.bin_to_hex id)]> m))
    by reflexivity.
  unfold Config.read_text in *.
  rewrite lookup_insert_ne by discriminate.
  rewrite Hr. rewrite decide_False by auto.
  rewrite lookup_insert_ne by discriminate.
  rewrite Hv.
  rewrite decide_False by (intros H; apply H; apply list_elem_of_here).
  rewrite lookup_insert_eq, (decode_encode _ (bin_to_hex_ascii id)).
  simpl. rewrite hex_to_bin_to_hex_length. now rewrite decide_True.
Qed.

(** X8.  [_set_id] on a repository that is not opened, or with an id that is
    not 32 bytes long, fails its assertion and changes nothing. *)
Theorem set_id_asserts (self : Repository3.t) (id : bytes) :
  Repository3.opened self = false ∨ Py.len id ≠ 32 →
  Repository3._set_id id self = (Raise AssertionError, self).
Proof.
  intros Hbad. unfold Repository3._set_id, mbind, Repository3.M_bind,
    Repository3.get_opened, Repository3.raise.
  destruct (Repository3.opened self); simpl; [|reflexivity].
  destruct Hbad as [?|Hlen]; [discriminate|]. now rewrite decide_True.
Qed.

(** X9.  [load_key] after [save_key] returns the saved key data, and saving
    a key changes what [get] returns for no id. *)
Theorem save_key_load_key (self : Repository3.t) (keydata k : bytes) :
  Spec.ready self →
  (Repository3.save_key keydata;; Repository3.load_key) self
  = (Ok keydata, (Repository3.save_key keydata self).2)
  ∧ (Repository3.get k true (Repository3.save_key keydata self).2).1
    = (Repository3.get k true self).1.
Proof.
  intros [m Hm]. pose proof Hm as [Ho Hb]%items_opened.
  destruct self as [[b o] ver i op]. simpl in *. subst.
  unfold Repository3.save_key, Repository3.load_key, mbind,
    Repository3.M_bind, Repository3.store_call, Repository3.store_query,
    Store.store, Store.load, Store.items.
  cbn [Repository3.store Store.opened Store.backend mbind result_bind fst snd].
  rewrite lookup_insert_eq. split; [reflexivity|].
  erewrite !get_eq by reflexivity. cbn [fst].
  rewrite lookup_insert_ne; [reflexivity|].
  unfold Spec.key. discriminate.
Qed.

(** X10.  [load_key] on a repository in which no key was saved raises the
    ObjectNotFound of the store; unlike [get] and [delete] it does not turn
    it into the ObjectNotFound of the class. *)
Theorem load_key_missing (self : Repository3.t) (m : gmap string bytes) :
  Store.items (Repository3.store self) = Ok m →
  m !! "keys/repokey" = None →
  Repository3.load_key self = (Raise StoreObjectNotFound, self).
Proof.
  intros Hm Hnone. unfold Repository3.load_key, Repository3.store_query,
    Store.load. now rewrite Hm; simpl; rewrite Hnone.
Qed.

End ids_and_keys.

(** ** Reading the metadata only *)

Lemma take_min_length {A} (n : nat) (l : list A) :
  take (n `min` length l) l = take n l.
Proof.
  destruct (decide (n ≤ length l)%nat).
  - now rewrite Nat.min_l.
  - rewrite Nat.min_r by lia. now rewrite !take_ge by lia.
Qed.

Lemma slice_drop_take {A} (a b : Z) (l : list A) :
  0 ≤ a → 0 ≤ b →
  Py.slice a b l = drop (Z.to_nat a) (take (Z.to_nat b) l).
Proof.
  intros Ha Hb. unfold Py.slice, Py.norm_index.
  destruct (Z.ltb_spec a 0); [lia|]. destruct (Z.ltb_spec b 0); [lia|].
  rewrite take_min_length.
  destruct (decide (Z.to_nat a ≤ length l)%nat).
  - now rewrite Nat.min_l.
  - rewrite Nat.min_r by lia.
    rewrite !drop_ge; [reflexivity| |]; rewrite length_take; lia.
Qed.

Section metadata.
Context `{C : Constants}.

Lemma get_meta_unfold (self : Repository3.t) (m : gmap string bytes)
    (id full : bytes) :
  Store.items (Repository3.store self) = Ok m →
  m !! Spec.key id = Some full →
  Repository3.get id false self
  = (let meta_len := Py.slice 0 meta_len_hdr_size (take 1024 full) in
     if decide (Py.len meta_len ≠ meta_len_hdr_size)
     then Raise IntegrityError
     else
       let ml := meta_len_hdr_unpack meta_len in
       let obj := if decide (ml > 1024 - meta_len_hdr_size)
                  then take (Z.to_nat (meta_len_hdr_size + ml)) full
                  else take 1024 full in
       let meta := Py.slice meta_len_hdr_size (meta_len_hdr_size + ml) obj in
       if decide (Py.len meta ≠ ml) then Raise IntegrityError
       else Ok (meta_len ++ meta)%list,
     self).
Proof.
  intros Hm Hfull.
  unfold Repository3.get, Repository3.try_except, mbind, Repository3.M_bind,
    Repository3.store_query, Repository3.raise, Store.load, mret,
    Repository3.M_ret.
  fold (Spec.key id). rewrite Hm. cbn [mbind result_bind]. rewrite Hfull.
  replace (meta_len_hdr_size + (1024 - meta_len_hdr_size)) with 1024 by lia.
  change (Z.to_nat 1024) with 1024%nat.
  cbv zeta.
  destruct (decide (Py.len (Py.slice 0 meta_len_hdr_size (take 1024 full))
                    ≠ meta_len_hdr_size)); [reflexivity|].
  destruct (decide (meta_len_hdr_unpack
                      (Py.slice 0 meta_len_hdr_size (take 1024 full))
                    > 1024 - meta_len_hdr_size)).
  - rewrite Hm. cbn [mbind result_bind]. rewrite Hfull.
    match goal with |- context [decide (Py.len ?x ≠ ?y)] =>
      destruct (decide (Py.len x ≠ y)) end; reflexivity.
  - match goal with |- context [decide (Py.len ?x ≠ ?y)] =>
      destruct (decide (Py.len x ≠ y)) end; reflexivity.
Qed.

(** X11.  With the header size between 0 and 1024, for a stored object
    that holds its header and the [ml] bytes of metadata the header
    announces, [get(id, read_data=False)] returns the first
    [header size + ml] bytes of what [get(id)] returns. *)
Theorem get_metadata_is_prefix (self : Repository3.t)
    (m : gmap string bytes) (id full : bytes) (ml : Z) :
  Store.items (Repository3.store self) = Ok m →
  m !! Spec.key id = Some full →
  0 ≤ meta_len_hdr_size ≤ 1024 →
  meta_len_hdr_unpack (take (Z.to_nat meta_len_hdr_size) full) = ml →
  0 ≤ ml →
  meta_len_hdr_size + ml ≤ Py.len full →
  Repository3.get id false self
  = (Ok (take (Z.to_nat (meta_len_hdr_size + ml)) full), self)
  ∧ Repository3.get id true self = (Ok full, self).
Proof.
  intros Hm Hfull Hsize Hml Hml0 Hlen. split.
  2: { rewrite (get_eq _ _ _ Hm). fold (Spec.key id). now rewrite Hfull. }
  rewrite (get_meta_unfold _ _ _ _ Hm Hfull). cbv zeta.
  unfold Py.len in Hlen.
  assert (Hmeta_len : Py.slice 0 meta_len_hdr_size (take 1024 full)
                      = take (Z.to_nat meta_len_hdr_size) full).
  { rewrite slice_drop_take by lia. rewrite drop_0, take_take. f_equal. lia. }
  rewrite Hmeta_len, Hml.
  rewrite decide_False
    by (unfold Py.len; rewrite length_take; lia).
  assert (Hmeta : ∀ obj,
    obj = take (Z.to_nat (meta_len_hdr_size + ml)) full ∨
    (obj = take 1024 full ∧ meta_len_hdr_size + ml ≤ 1024) →
    Py.slice meta_len_hdr_size (meta_len_hdr_size + ml) obj
    = drop (Z.to_nat meta_len_hdr_size)
        (take (Z.to_nat (meta_len_hdr_size + ml)) full)).
  { intros obj Hobj. rewrite slice_drop_take by lia. f_equal.
    destruct Hobj as [->|[-> ?]]; rewrite take_take; f_equal; lia. }
  assert (Hjoin :
    (take (Z.to_nat meta_len_hdr_size) full
     ++ drop (Z.to_nat meta_len_hdr_size)
          (take (Z.to_nat (meta_len_hdr_size + ml)) full))%list
    = take (Z.to_nat (meta_len_hdr_size + ml)) full).
  { rewrite <- (take_drop (Z.to_nat meta_len_hdr_size)
                  (take (Z.to_nat (meta_len_hdr_size + ml)) full)) at 2.
    f_equal. rewrite take_take. f_equal. lia. }
  assert (Hlen_meta :
    Py.len (drop (Z.to_nat meta_len_hdr_size)
              (take (Z.to_nat (meta_len_hdr_size + ml)) full)) = ml).
  { unfold Py.len. rewrite length_drop, length_take. lia. }
  destruct (decide (ml > 1024 - meta_len_hdr_size)).
  - rewrite Hmeta by now left. rewrite decide_False by now rewrite Hlen_meta.
    now rewrite Hjoin.
  - rewrite Hmeta by (right; split; [reflexivity|lia]).
    rewrite decide_False by now rewrite Hlen_meta.
    now rewrite Hjoin.
Qed.

(** X12.  With the header size between 0 and 1024,
    [get(id, read_data=False)] raises IntegrityError for a stored object
    that is shorter than the header, or shorter than the header and the
    metadata the header announces. *)
Theorem get_metadata_too_small (self : Repository3.t)
    (m : gmap string bytes) (id full : bytes) :
  Store.items (Repository3.store self) = Ok m →
  m !! Spec.key id = Some full →
  0 ≤ meta_len_hdr_size ≤ 1024 →
  Py.len full < meta_len_hdr_size
  ∨ (0 ≤ meta_len_hdr_unpack (take (Z.to_nat meta_len_hdr_size) full)
     ∧ Py.len full
       < meta_len_hdr_size
         + meta_len_hdr_unpack (take (Z.to_nat meta_len_hdr_size) full)) →
  Repository3.get id false self = (Raise IntegrityError, self).
Proof.
  intros Hm Hfull Hsize Hsmall.
  rewrite (get_meta_unfold _ _ _ _ Hm Hfull). cbv zeta.
  assert (Hmeta_len : Py.slice 0 meta_len_hdr_size (take 1024 full)
                      = take (Z.to_nat meta_len_hdr_size) full).
  { rewrite slice_drop_take by lia. rewrite drop_0, take_take. f_equal. lia. }
  rewrite Hmeta_len.
  destruct (decide (Py.len (take (Z.to_nat meta_len_hdr_size) full)
                    ≠ meta_len_hdr_size)) as [|Hhdr]; [reflexivity|].
  apply dec_stable in Hhdr. unfold Py.len in Hhdr, Hsmall.
  rewrite length_take in Hhdr.
  destruct Hsmall as [Hshort|[Hml0 Hshort]]; [lia|].
  set (ml := meta_len_hdr_unpack (take (Z.to_nat meta_len_hdr_size) full)) in *.
  rewrite decide_True; [reflexivity|].
  unfold Py.len. rewrite slice_drop_take by lia.
  rewrite length_drop, length_take.
  destruct (decide (ml > 1024 - meta_len_hdr_size)); rewrite length_take; lia.
Qed.

Lemma get_absent_raises_aux (self : Repository3.t) (id : bytes)
    (read_data : bool) :
  Spec.ready self →
  Spec.stored self id = None →
  Repository3.get id read_data self = (Raise ObjectNotFound, self).
Proof.
  intros [m Hm] Hnone. unfold Spec.stored in Hnone. rewrite Hm in Hnone.
  destruct read_data;
    unfold Repository3.get, Repository3.try_except, mbind, Repository3.M_bind,
      Repository3.store_query, Repository3.raise, Store.load;
    fold (Spec.key id); rewrite Hm; cbn [mbind result_bind]; rewrite Hnone;
    reflexivity.
Qed.

(** X13.  [get] of an id the repository does not hold raises ObjectNotFound
    and leaves the repository as it was, whether the data is read or only
    the metadata. *)
Theorem get_absent_raises (self : Repository3.t) (id : bytes)
    (read_data : bool) :
  Spec.ready self →
  Spec.stored self id = None →
  Repository3.get id read_data self = (Raise ObjectNotFound, self).
Proof. apply get_absent_raises_aux. Qed.

End metadata.

(** ** Pages of a listing *)

(** X14.  On a repository whose names are those [put] wrote and that holds
    at least one object, [list(limit=n)] for n of at least 1 is the first n
    ids of [list()], and [list(marker=x)] for the last id x of that page
    is the rest: the two pages together are [list()]. *)
Theorem list_pages (self : Repository3.t) (ids : list bytes) (n : Z) :
  Spec.hex_named self →
  (Repository3.list_ None None 0 0 self).1 = Ok ids →
  1 ≤ n →
  ids ≠ [] →
  Repository3.list_ (Some n) None 0 0 self
  = (Ok (take (Z.to_nat n) ids), self)
  ∧ ∃ x, last (take (Z.to_nat n) ids) = Some x
         ∧ Repository3.list_ None (Some x) 0 0 self
           = (Ok (drop (Z.to_nat n) ids), self).
Proof.
  intros Hhex Hids Hn Hne.
  pose proof (list_NoDup _ _ Hhex Hids) as Hnodup.
  split.
  - rewrite list_select, Hids. simpl. unfold Spec.select. simpl.
    now rewrite slice_to_take by lia.
  - destruct (last (take (Z.to_nat n) ids)) as [x|] eqn:Hlast.
    + exists x. split; [reflexivity|].
      rewrite list_select, Hids. simpl.
      rewrite <- (take_drop (Z.to_nat n) ids) at 1.
      rewrite <- Hlast. rewrite select_last by now rewrite take_drop.
      reflexivity.
    + apply last_None in Hlast. destruct ids as [|i ids]; [contradiction|].
      destruct (Z.to_nat n) eqn:Hz; [lia|discriminate].
Qed.

(** X15.  A limit below 1 is not refused: [list(limit=0)] is empty, and
    [list(limit=-n)] for n of at least 1 is [list()] without its last n
    ids. *)
Theorem list_limit_below_one (self : Repository3.t) (ids : list bytes)
    (n : Z) :
  (Repository3.list_ None None 0 0 self).1 = Ok ids →
  1 ≤ n →
  Repository3.list_ (Some 0) None 0 0 self = (Ok [], self)
  ∧ Repository3.list_ (Some (- n)) None 0 0 self
    = (Ok (take (length ids - Z.to_nat n) ids), self).
Proof.
  intros Hids Hn.
  rewrite (list_select _ (Some 0)), (list_select _ (Some (- n))), Hids.
  unfold Spec.select, Py.slice_to, Py.norm_index. cbn [fst mbind result_bind].
  split; [reflexivity|].
  destruct (Z.ltb_spec (- n) 0); [|lia]. do 3 f_equal. lia.
Qed.

(** ** What is listed is what can be got *)

Lemma mapM_Ok_2 {A B} (f : A → result B) (l : list A) (k : list B) :
  Forall2 (λ x y, f x = Ok y) l k → mapM f l = Ok k.
Proof.
  induction 1 as [|x y l k Hx _ IH]; [reflexivity|].
  simpl. rewrite Hx. simpl. now rewrite IH.
Qed.

Lemma hex_names_decode (infos : list Store.ItemInfo) :
  Forall (λ info, ∃ id, Store.name info = Hex.bin_to_hex id) infos →
  ∃ ids, mapM (λ info, Hex.hex_to_bin (Store.name info) None) infos = Ok ids
         ∧ Store.name <$> infos = Hex.bin_to_hex <$> ids.
Proof.
  induction 1 as [|info infos [id Hid] _ (ids & Hids & Hnames)].
  - now exists [].
  - exists (id :: ids). split.
    + apply mapM_Ok_2. constructor.
      * now rewrite Hid, hex_to_bin_to_hex.
      * now apply mapM_Ok.
    + rewrite !fmap_cons. now rewrite Hid, Hnames.
Qed.

Lemma list_membership (self : Repository3.t) (m : gmap string bytes) :
  Spec.hex_named self →
  Store.items (Repository3.store self) = Ok m →
  ∃ ids, Repository3.list_ None None 0 0 self = (Ok ids, self)
         ∧ NoDup ids
         ∧ ∀ k, k ∈ ids ↔ is_Some (m !! Spec.key k).
Proof.
  intros Hhex Hm.
  assert (Hall : Forall (λ info, ∃ id, Store.name info = Hex.bin_to_hex id)
                   (omap (Store.info_in "data") (map_to_list m))).
  { apply Forall_forall. intros info (kv & Hkv & Hinfo)%list_elem_of_omap.
    apply info_in_Some in Hinfo. destruct kv as [key v].
    apply elem_of_map_to_list in Hkv. simpl in Hinfo. subst key.
    now apply (Hhex m (Store.name info) v). }
  destruct (hex_names_decode _ Hall) as (ids & Hids & Hnames).
  assert (Hlist : Repository3.list_ None None 0 0 self = (Ok ids, self)).
  { unfold Repository3.list_, mbind, Repository3.M_bind,
      Repository3.store_query, Repository3.lift, Store.list_.
    rewrite Hm. cbn [mbind result_bind]. now rewrite Hids. }
  exists ids. split; [exact Hlist|]. split.
  { apply (list_NoDup self); [assumption|]. now rewrite Hlist. }
  intros k. split.
  - intros Hk.
    assert (Hname : Hex.bin_to_hex k
                    ∈ Store.name <$> omap (Store.info_in "data") (map_to_list m)).
    { rewrite Hnames. now apply list_elem_of_fmap_2. }
    apply list_elem_of_fmap in Hname
      as (info & Hname & (kv & Hkv & Hinfo)%list_elem_of_omap).
    apply info_in_Some in Hinfo. destruct kv as [key v].
    apply elem_of_map_to_list in Hkv. simpl in Hinfo. subst key.
    rewrite <- Hname in Hkv. exists v. exact Hkv.
  - intros [v Hv].
    assert (Hname : Hex.bin_to_hex k
                    ∈ Store.name <$> omap (Store.info_in "data") (map_to_list m)).
    { apply list_elem_of_fmap.
      exists {| Store.name := Hex.bin_to_hex k; Store.size := Py.len v |}.
      split; [reflexivity|]. apply list_elem_of_omap.
      exists (Spec.key k, v). split; [now apply elem_of_map_to_list|].
      unfold Store.info_in, Spec.key. simpl fst.
      change ("data" +:+ "/") with "data/". now rewrite strip_prefix_app. }
    rewrite Hnames in Hname.
    apply list_elem_of_fmap in Hname as (k' & Hk' & Hin).
    apply bin_to_hex_inj in Hk'. now subst k'.
Qed.

Section listed.
Context `{C : Constants}.

(** X16.  On a usable repository whose names are those [put] wrote,
    [list()] succeeds, lists no id twice, and lists exactly the ids for
    which [get] returns a payload. *)
Theorem list_lists_what_get_finds (self : Repository3.t) :
  Spec.hex_named self →
  Spec.ready self →
  ∃ ids, Repository3.list_ None None 0 0 self = (Ok ids, self)
         ∧ NoDup ids
         ∧ ∀ k, k ∈ ids ↔ ∃ v, Repository3.get k true self = (Ok v, self).
Proof.
  intros Hhex [m Hm].
  destruct (list_membership self m Hhex Hm) as (ids & Hlist & Hnodup & Hmem).
  exists ids. split; [assumption|]. split; [assumption|].
  intros k. rewrite Hmem, (get_eq _ _ _ Hm). split.
  - intros [v Hv]. exists v. now rewrite Hv.
  - intros [v Hv]. destruct (m !! Spec.key k); [eauto|discriminate].
Qed.

(** The answer of [get] depends on what the store holds under the id's
    name only. *)
Lemma get_lookup (self1 self2 : Repository3.t) (m1 m2 : gmap string bytes)
    (id : bytes) (read_data : bool) :
  Store.items (Repository3.store self1) = Ok m1 →
  Store.items (Repository3.store self2) = Ok m2 →
  m1 !! Spec.key id = m2 !! Spec.key id →
  (Repository3.get id read_data self1).1
  = (Repository3.get id read_data self2).1.
Proof.
  intros Hm1 Hm2 Hsame.
  destruct (m2 !! Spec.key id) as [full|] eqn:H2.
  - destruct read_data.
    + rewrite (get_eq _ _ _ Hm1), (get_eq _ _ _ Hm2). now rewrite Hsame, H2.
    + now rewrite (get_meta_unfold _ _ _ _ Hm1 Hsame),
                  (get_meta_unfold _ _ _ _ Hm2 H2).
  - rewrite !get_absent_raises_aux; try reflexivity.
    + eexists; eassumption.
    + unfold Spec.stored. now rewrite Hm2.
    + eexists; eassumption.
    + unfold Spec.stored. now rewrite Hm1.
Qed.

End listed.

(** ** How put and delete compose *)

Section composing.
Context `{C : Constants}.

(** X17.  A put or a delete of one id changes what [get] answers for no
    other id, whether the data is read or only the metadata. *)
Theorem other_ids_untouched (self : Repository3.t) (k k' v : bytes)
    (read_data : bool) :
  Spec.ready self →
  k' ≠ k →
  (Repository3.get k' read_data (Repository3.put k v self).2).1
  = (Repository3.get k' read_data self).1
  ∧ (Repository3.get k' read_data (Repository3.delete k self).2).1
    = (Repository3.get k' read_data self).1.
Proof.
  intros [m Hm] Hne.
  assert (Hkey : Spec.key k ≠ Spec.key k')
    by (intros H; apply Hne; symmetry; now apply key_inj).
  split.
  - destruct (decide (Py.len v > MAX_DATA_SIZE)) as [Hbig|Hsize].
    + unfold Repository3.put. now rewrite decide_True.
    + rewrite (put_eq _ _ _ _ Hm) by lia. cbn [snd].
      apply (get_lookup _ _ (<[Spec.key k:=v]> m) m);
        [exact (items_with_items _ _ _ Hm)|assumption|].
      now apply lookup_insert_ne.
  - rewrite (delete_eq _ _ _ Hm).
    destruct (m !! Spec.key k) as [old|]; [|reflexivity]. cbn [snd].
    apply (get_lookup _ _ (delete (Spec.key k) m) m);
      [exact (items_with_items _ _ _ Hm)|assumption|].
    now apply lookup_delete_ne.
Qed.

(** X18.  After a put of an id, a delete of it succeeds, and then both
    [get] and a second delete of the id raise ObjectNotFound. *)
Theorem put_then_delete (self : Repository3.t) (k v : bytes) :
  Spec.ready self →
  Py.len v ≤ MAX_DATA_SIZE →
  ((Repository3.put k v;; Repository3.delete k) self).1 = Ok ()
  ∧ ((Repository3.put k v;; Repository3.delete k;;
      Repository3.get k true) self).1 = Raise ObjectNotFound
  ∧ ((Repository3.put k v;; Repository3.delete k;;
      Repository3.delete k) self).1 = Raise ObjectNotFound.
Proof.
  intros [m Hm] Hsize.
  pose proof (items_with_items self m (<[Spec.key k:=v]> m) Hm) as Hm1.
  pose proof (items_with_items _ _ (delete (Spec.key k) (<[Spec.key k:=v]> m))
                Hm1) as Hm2.
  unfold mbind, Repository3.M_bind.
  rewrite (put_eq _ _ _ _ Hm Hsize).
  rewrite (delete_eq _ _ _ Hm1), lookup_insert_eq.
  split; [reflexivity|].
  rewrite (get_eq _ _ _ Hm2), (delete_eq _ _ _ Hm2), lookup_delete_eq.
  split; reflexivity.
Qed.

(** X19.  On a usable repository whose names are those [put] wrote, a put
    that is accepted adds its id to what [list()] returns and nothing else,
    and a delete that succeeds removes its id and nothing else. *)
Theorem listing_follows_put_and_delete (self : Repository3.t)
    (k v : bytes) (ids : list bytes) :
  Spec.hex_named self →
  Spec.ready self →
  (Repository3.list_ None None 0 0 self).1 = Ok ids →
  (Py.len v ≤ MAX_DATA_SIZE →
   ∃ ids', (Repository3.list_ None None 0 0 (Repository3.put k v self).2).1
           = Ok ids'
           ∧ ∀ k', k' ∈ ids' ↔ k' = k ∨ k' ∈ ids)
  ∧ (k ∈ ids →
     ∃ ids', (Repository3.list_ None None 0 0 (Repository3.delete k self).2).1
             = Ok ids'
             ∧ ∀ k', k' ∈ ids' ↔ k' ≠ k ∧ k' ∈ ids).
Proof.
  intros Hhex [m Hm] Hids.
  destruct (list_membership self m Hhex Hm) as (ids0 & Hlist & _ & Hmem).
  rewrite Hlist in Hids. injection Hids as ->.
  split.
  - intros Hsize.
    assert (Hput : Spec.call (Spec.Put k v) self
                   = (Ok (), (Repository3.put k v self).2))
      by (cbn [Spec.call]; now rewrite (put_eq _ _ _ _ Hm Hsize)).
    pose proof (call_hex_named _ _ _ Hhex Hput) as Hhex'.
    rewrite (put_eq _ _ _ _ Hm Hsize) in *. cbn [snd] in *.
    destruct (list_membership _ _ Hhex' (items_with_items _ _ _ Hm))
      as (ids' & Hlist' & _ & Hmem').
    exists ids'. split; [now rewrite Hlist'|].
    intros k'. rewrite Hmem', Hmem.
    destruct (decide (k' = k)) as [->|Hne].
    + rewrite lookup_insert_eq. split; [now left|eauto].
    + rewrite lookup_insert_ne
        by (intros H; apply Hne; symmetry; now apply key_inj).
      split; [now right|]. now intros [?|?].
  - intros Hk. apply Hmem in Hk as [old Hold].
    assert (Hdel : Spec.call (Spec.Delete k) self
                   = (Ok (), (Repository3.delete k self).2))
      by (cbn [Spec.call]; now rewrite (delete_eq _ _ _ Hm), Hold).
    pose proof (call_hex_named _ _ _ Hhex Hdel) as Hhex'.
    rewrite (delete_eq _ _ _ Hm), Hold in *. cbn [snd] in *.
    destruct (list_membership _ _ Hhex' (items_with_items _ _ _ Hm))
      as (ids' & Hlist' & _ & Hmem').
    exists ids'. split; [now rewrite Hlist'|].
    intros k'. rewrite Hmem', Hmem.
    destruct (decide (k' = k)) as [->|Hne].
    + rewrite lookup_delete_eq. split; [intros [? [=]]|now intros [? _]].
    + rewrite lookup_delete_ne
        by (intros H; apply Hne; symmetry; now apply key_inj).
      split; [now split|now intros [_ ?]].
Qed.

(** X20.  [destroy] on an opened repository closes it and removes what the
    URL held: a later open by a new object finds no store. *)
Theorem destroy_removes_store (self : Repository3.t) (m : gmap string bytes) :
  Repository3.opened self = true →
  Store.items (Repository3.store self) = Ok m →
  Repository3.destroy self
  = (Ok (),
     {| Repository3.store := {| Store.backend := None; Store.opened := false |};
        Repository3.version := Repository3.version self;
        Repository3.id := Repository3.id self;
        Repository3.opened := false |})
  ∧ Repository3.open
      (Repository3.init
         (Store.backend (Repository3.store (Repository3.destroy self).2)))
    = (Raise BackendDoesNotExist, Repository3.init None).
Proof.
  intros Hop [Ho Hb]%items_opened. destruct self as [[b o] v i op].
  simpl in *. subst. split; reflexivity.
Qed.

End composing.

(** ** The further properties on the sample repository *)

Lemma three_ready : Spec.ready Sample.three.
Proof. eexists. vm_compute. reflexivity. Qed.

Lemma three_hex_named : Spec.hex_named Sample.three.
Proof.
  apply (run_hex_named (C := Sample.constants)
           [Spec.Put Sample.k0 Sample.foo; Spec.Put Sample.k1 Sample.bar;
            Spec.Put Sample.k2 Sample.bar] Sample.fresh).
  - apply empty_hex_named. vm_compute. reflexivity.
  - vm_compute. reflexivity.
Qed.

Lemma three_items :
  Store.items (Repository3.store Sample.three) = Ok Cases.three_disk.
Proof. vm_compute. reflexivity. Qed.

Lemma three_opens :
  (Repository3.open (C := Sample.constants)
     (Repository3.init (Some Cases.three_disk))).1 = Ok ().
Proof. vm_compute. reflexivity. Qed.

Lemma objects_items :
  Store.items (Repository3.store Cases.with_objects) = Ok Cases.objects_disk.
Proof. vm_compute. reflexivity. Qed.

Lemma three_list :
  (Repository3.list_ None None 0 0 Sample.three).1
  = Ok [Sample.k2; Sample.k1; Sample.k0].
Proof. vm_compute. reflexivity. Qed.

Lemma sample_readme :
  Py.decode (Py.encode (REPOSITORY_README (Constants := Sample.constants)))
  = Ok (REPOSITORY_README (Constants := Sample.constants)).
Proof. vm_compute. reflexivity. Qed.

Lemma with_block_persists_witness :
  ((Managed.__enter__ (C := Sample.constants) (replicate 32 x09);;
    Managed.call (Repository3.get (C := Sample.constants) Sample.k0 true))
     (Managed.init
        (Some (<[Spec.key Sample.k0 := Sample.foo]>
                 (Config.written (C := Sample.constants) (replicate 32 x07))))
        false false None)).1
  = Ok Sample.foo.
Proof.
  refine (proj2 (with_block_persists (C := Sample.constants)
                   (replicate 32 x07) (replicate 32 x09) Sample.k0 Sample.foo
                   true false (Some 1000) None _ sample_readme _)).
  - reflexivity.
  - vm_compute. discriminate.
Defined.

Lemma info_needs_open_witness :
  ((Managed.__enter__ (C := Sample.constants) (replicate 32 x07);;
    Managed.info)
     (Managed.init None true true (Some 1000))).1
  = Ok {| Managed.info_id := replicate 32 x07;
          Managed.info_version := Some 3;
          Managed.info_storage_quota_use := 0;
          Managed.info_storage_quota := Some 1000;
          Managed.info_append_only := true |}.
Proof.
  refine (proj2 (info_needs_open (C := Sample.constants)
                   (replicate 32 x07) true (Some 1000) _ sample_readme)).
  reflexivity.
Defined.

Lemma set_id_read_back_witness :
  Repository3.id (Repository3._set_id (replicate 32 x09) Sample.three).2
  = Some (replicate 32 x09).
Proof.
  refine (proj1 (proj2 (set_id_read_back (C := Sample.constants)
                          Sample.three Cases.three_disk (replicate 32 x09)
                          _ three_items three_opens _))).
  - vm_compute. reflexivity.
  - reflexivity.
Defined.

Lemma set_id_asserts_witness :
  Repository3._set_id [x09] Sample.three
  = (Raise AssertionError, Sample.three).
Proof.
  refine (set_id_asserts Sample.three [x09] (or_intror _)).
  vm_compute. discriminate.
Defined.

Lemma save_key_load_key_witness :
  (Repository3.save_key Sample.foo;; Repository3.load_key) Sample.three
  = (Ok Sample.foo, (Repository3.save_key Sample.foo Sample.three).2).
Proof.
  exact (proj1 (save_key_load_key (C := Sample.constants)
                  Sample.three Sample.foo Sample.k0 three_ready)).
Defined.

Lemma load_key_missing_witness :
  Repository3.load_key Sample.three = (Raise StoreObjectNotFound, Sample.three).
Proof.
  refine (load_key_missing Sample.three Cases.three_disk three_items _).
  vm_compute. reflexivity.
Defined.

Lemma get_metadata_is_prefix_witness :
  Repository3.get (C := Sample.constants) Sample.k0 false Cases.with_objects
  = (Ok [x01; x00; x61], Cases.with_objects)
  ∧ Repository3.get (C := Sample.constants) Sample.k0 true Cases.with_objects
    = (Ok Cases.obj_meta, Cases.with_objects).
Proof.
  refine (get_metadata_is_prefix (C := Sample.constants)
            Cases.with_objects Cases.objects_disk Sample.k0 Cases.obj_meta 1
            objects_items _ _ _ _ _).
  - vm_compute. reflexivity.
  - split; vm_compute; discriminate.
  - reflexivity.
  - vm_compute. discriminate.
  - vm_compute. discriminate.
Defined.

Lemma get_metadata_too_small_witness :
  Repository3.get (C := Sample.constants) Sample.k1 false Cases.with_objects
  = (Raise IntegrityError, Cases.with_objects).
Proof.
  refine (get_metadata_too_small (C := Sample.constants)
            Cases.with_objects Cases.objects_disk Sample.k1 Cases.obj_short
            objects_items _ _ (or_intror _)).
  - vm_compute. reflexivity.
  - split; vm_compute; discriminate.
  - split; [vm_compute; discriminate|vm_compute; reflexivity].
Defined.

Lemma get_absent_raises_witness :
  Repository3.get (C := Sample.constants) [x02] false Sample.three
  = (Raise ObjectNotFound, Sample.three).
Proof.
  refine (get_absent_raises (C := Sample.constants)
            Sample.three [x02] false three_ready _).
  vm_compute. reflexivity.
Defined.

Lemma list_pages_witness :
  Repository3.list_ (Some 2) None 0 0 Sample.three
  = (Ok (take (Z.to_nat 2) [Sample.k2; Sample.k1; Sample.k0]), Sample.three)
  ∧ ∃ x, last (take (Z.to_nat 2) [Sample.k2; Sample.k1; Sample.k0]) = Some x
         ∧ Repository3.list_ None (Some x) 0 0 Sample.three
           = (Ok (drop (Z.to_nat 2) [Sample.k2; Sample.k1; Sample.k0]),
              Sample.three).
Proof.
  refine (list_pages Sample.three _ 2 three_hex_named three_list _ _).
  - lia.
  - discriminate.
Defined.

Lemma list_limit_below_one_witness :
  Repository3.list_ (Some 0) None 0 0 Sample.three = (Ok [], Sample.three)
  ∧ Repository3.list_ (Some (- (1))) None 0 0 Sample.three
    = (Ok (take (length [Sample.k2; Sample.k1; Sample.k0] - Z.to_nat 1)
             [Sample.k2; Sample.k1; Sample.k0]), Sample.three).
Proof.
  refine (list_limit_below_one Sample.three _ 1 three_list _). lia.
Defined.

Lemma list_lists_what_get_finds_witness :
  ∃ ids, Repository3.list_ None None 0 0 Sample.three = (Ok ids, Sample.three)
         ∧ NoDup ids
         ∧ ∀ k, k ∈ ids
                ↔ ∃ v, Repository3.get (C := Sample.constants) k true
                         Sample.three = (Ok v, Sample.three).
Proof.
  exact (list_lists_what_get_finds (C := Sample.constants)
           Sample.three three_hex_named three_ready).
Defined.

Lemma other_ids_untouched_witness :
  (Repository3.get (C := Sample.constants) Sample.k1 true
     (Repository3.put (C := Sample.constants)
        Sample.k0 Sample.bar Sample.three).2).1
  = (Repository3.get (C := Sample.constants) Sample.k1 true Sample.three).1.
Proof.
  refine (proj1 (other_ids_untouched (C := Sample.constants)
                   Sample.three Sample.k0 Sample.k1 Sample.bar true
                   three_ready _)).
  discriminate.
Defined.

Lemma put_then_delete_witness :
  ((Repository3.put (C := Sample.constants) [x02] Sample.foo;;
    Repository3.delete [x02];;
    Repository3.get (C := Sample.constants) [x02] true) Sample.three).1
  = Raise ObjectNotFound.
Proof.
  refine (proj1 (proj2 (put_then_delete (C := Sample.constants)
                          Sample.three [x02] Sample.foo three_ready _))).
  vm_compute. discriminate.
Defined.

Lemma listing_follows_put_and_delete_witness :
  ∃ ids', (Repository3.list_ None None 0 0
             (Repository3.delete Sample.k1 Sample.three).2).1 = Ok ids'
          ∧ ∀ k', k' ∈ ids'
                  ↔ k' ≠ Sample.k1 ∧ k' ∈ [Sample.k2; Sample.k1; Sample.k0].
Proof.
  refine (proj2 (listing_follows_put_and_delete (C := Sample.constants)
                   Sample.three Sample.k1 Sample.foo _
                   three_hex_named three_ready three_list) _).
  apply list_elem_of_further, list_elem_of_here.
Defined.

Lemma destroy_removes_store_witness :
  Repository3.open (C := Sample.constants)
    (Repository3.init
       (Store.backend (Repository3.store (Repository3.destroy Sample.three).2)))
  = (Raise BackendDoesNotExist, Repository3.init None).
Proof.
  refine (proj2 (destroy_removes_store (C := Sample.constants)
                   Sample.three Cases.three_disk _ three_items)).
  vm_compute. reflexivity.
Defined.

Lemma close_releases_once_witness :
  (Repository3.close;; Repository3.close) Sample.three
  = Repository3.close Sample.three.
Proof.
  refine (proj2 (close_releases_once Sample.three Cases.three_disk
                   _ three_items)).
  vm_compute. reflexivity.
Defined.
